(** * pydockerpull: reference parsing, registry pull and archive assembly

    A shallow embedding of [pull.py].  Python [str] values are modelled as
    [string]; the file system is a finite map from path strings to file
    contents; Python exceptions are an explicit error type; the registry is
    the list of answers it gives to the successive HTTP requests.

    Modelling conventions:
    - a character of a [string] is a byte; a non-ASCII character is the
      sequence of its UTF-8 bytes, none of which is an ASCII byte, so
      searching, splitting and replacing at the ASCII separators of the
      program ([/], [:], [@sha256:], [://]) act as on Python's [str];
    - a path string denotes one file (paths are compared as written, no
      normalisation of [.], [..] or doubled slashes), and every entry of
      the file system is a regular file; directories are not entries:
      [os.makedirs] returns or raises and changes no entry, and a path at
      which the program reads or writes a file does not name a
      directory; a file that is present can be read;
    - a file holds either a JSON document (the value [json.load] returns
      for its text, which is also what [json.dump] of that value writes),
      bytes that are not a JSON document, or a tar archive;
    - a call of [requests.get] is recorded by the arguments its URL is
      built from, with the response it returned (after the redirects it
      follows); credentials, the [Host] header and the TLS switch do not
      influence the control flow and are left out; a body read as a
      stream arrives whole or breaks off after a part of it;
    - [print] calls are not modelled; the value a run returns records
      which message it printed last where the source returns [None]. *)

From Stdlib Require Import Ascii String.
From stdpp Require Import base tactics option list strings gmap.

(** ** Python exceptions and fallible computations *)

(** The exceptions the program can meet.  [FileNotFoundError msg] is the
    one the program raises itself, with its message.  [OSError path]
    stands for every failure of the operating system on [path]
    ([open(path, "w")], [tarfile.open], [os.makedirs]), whatever its
    Python class ([PermissionError], [FileExistsError], the
    [FileNotFoundError] of a missing parent directory, ...).
    [Exception] stands for the ones the program raises itself with that
    class and for connection errors.  Messages the interpreter or a library
    composes are given in CPython's wording where it is fixed, and
    without their interpolated parts otherwise. *)
Inductive exn : Type :=
| ValueError (msg : string)
| FileNotFoundError (msg : string)
| KeyError (key : string)
| TypeError (msg : string)
| AttributeError (msg : string)
| OSError (path : string)
| Exception (msg : string).

Inductive result (A : Type) : Type :=
| Ok (a : A)
| Raise (e : exn).
Arguments Ok {A} a.
Arguments Raise {A} e.

Definition bind {A B : Type} (m : result A) (k : A → result B) : result B :=
  match m with
  | Ok a => k a
  | Raise e => Raise e
  end.

Notation "'let*' x ':=' m 'in' k" := (bind m (λ x, k))
  (at level 10, x pattern, m at level 100, k at level 200).

(** ** Python string primitives used by the program *)

(** [sub in s]: [sub] occurs in [s] as a contiguous substring. *)
Fixpoint py_in (sub s : string) : bool :=
  String.prefix sub s ||
  match s with
  | EmptyString => false
  | String _ s' => py_in sub s'
  end.

(** [s.split(sep)] for a non-empty separator (every call site passes a
    non-empty literal).  The scan goes left to right; [skip] counts the
    characters of a matched separator still to be consumed.  The result
    is the first piece together with the later pieces. *)
Fixpoint split_go (sep : string) (skip : nat) (s : string) : string * list string :=
  match s with
  | EmptyString => (EmptyString, [])
  | String c s' =>
      match skip with
      | S k => split_go sep k s'
      | O =>
          if String.prefix sep s
          then let '(p, ps) := split_go sep (String.length sep - 1) s' in
               (EmptyString, p :: ps)
          else let '(p, ps) := split_go sep 0 s' in
               (String c p, ps)
      end
  end.

Definition py_split (sep s : string) : list string :=
  let '(p, ps) := split_go sep 0 s in p :: ps.

(** [sep.join(l)] *)
Fixpoint py_join (sep : string) (l : list string) : string :=
  match l with
  | [] => EmptyString
  | [x] => x
  | x :: xs => x +:+ sep +:+ py_join sep xs
  end.

(** [s.replace(old, new)] where [old] and [new] are one character each. *)
Fixpoint py_replace (old new : ascii) (s : string) : string :=
  match s with
  | EmptyString => EmptyString
  | String c s' =>
      String (if Ascii.eqb c old then new else c) (py_replace old new s')
  end.

(** [a, b = l]: unpacking into exactly two names. *)
Definition unpack2 (l : list string) : result (string * string) :=
  match l with
  | [a; b] => Ok (a, b)
  | [] | [_] => Raise (ValueError "not enough values to unpack (expected 2)")
  | _ => Raise (ValueError "too many values to unpack (expected 2)")
  end.

(** Number of occurrences of a character, and of a substring (counted by
    starting position). *)
Fixpoint count_char (c : ascii) (s : string) : nat :=
  match s with
  | EmptyString => 0
  | String d s' => (if Ascii.eqb d c then 1 else 0) + count_char c s'
  end.

Fixpoint occurrences (sub s : string) : nat :=
  (if String.prefix sub s then 1 else 0) +
  match s with
  | EmptyString => 0
  | String _ s' => occurrences sub s'
  end.

(** ** Reference parser *)

Definition parse_docker_pull_link (pull_link : string)
  : result (string * string * string * string) :=
  if py_in "://" pull_link then
    Raise (ValueError "Docker pull link should not include protocol (e.g., http://).")
  else
    let parts := py_split "/" pull_link in
    if length parts <? 3 then
      Raise (ValueError "Invalid Docker pull link format. Expected: <harbor-host>/<project>/<image>:<tag> or <harbor-host>/<project>/<image>/<image-name>@sha256:<digest>")
    else
      let harbor_host := nth 0 parts EmptyString in
      let project_name := nth 1 parts EmptyString in
      let image_and_ref := py_join "/" (drop 2 parts) in
      if py_in "@sha256:" image_and_ref then
        let* (image_name, image_ref) := unpack2 (py_split "@sha256:" image_and_ref) in
        Ok (harbor_host, project_name, image_name, "sha256:" +:+ image_ref)
      else if py_in ":" image_and_ref then
        let* (image_name, image_ref) := unpack2 (py_split ":" image_and_ref) in
        Ok (harbor_host, project_name, image_name, image_ref)
      else
        Ok (harbor_host, project_name, image_and_ref, "latest").

(** The image-and-reference tail of a pull string: the [/]-join of the
    segments after host and project ([image_and_ref] in the parser). *)
Definition image_and_ref_of (pull_link : string) : string :=
  py_join "/" (drop 2 (py_split "/" pull_link)).

(** Re-joining a parsed reference written with a tag. *)
Definition rejoin (parsed : string * string * string * string) : string :=
  let '(harbor_host, project_name, image_name, image_ref) := parsed in
  harbor_host +:+ "/" +:+ project_name +:+ "/" +:+ image_name +:+ ":" +:+ image_ref.

(** ** JSON values, with the Python operations the program applies to them *)

Set Warnings "-register-all".

Inductive json : Type :=
| JNull
| JBool (b : bool)
| JInt (n : Z)
| JFloat (mantissa exponent : Z)
| JStr (s : string)
| JArr (items : list json)
| JObj (fields : list (string * json)).

(** Lookup in a parsed object.  A parsed object is a Python [dict], so its
    keys are distinct and the first binding is the only one. *)
Fixpoint assoc (key : string) (fields : list (string * json)) : option json :=
  match fields with
  | [] => None
  | (k, v) :: rest => if String.eqb k key then Some v else assoc key rest
  end.

(** Truth value of [j], as used by [not manifest]. *)
Definition py_truthy (j : json) : bool :=
  match j with
  | JNull => false
  | JBool b => b
  | JInt n => negb (n =? 0)%Z
  | JFloat m _ => negb (m =? 0)%Z
  | JStr s => negb (String.eqb s EmptyString)
  | JArr l => match l with [] => false | _ => true end
  | JObj f => match f with [] => false | _ => true end
  end.

(** [isinstance(j, dict)] *)
Definition is_dict (j : json) : bool :=
  match j with JObj _ => true | _ => false end.

(** [key in j] for a dict [j] *)
Definition dict_has (key : string) (j : json) : bool :=
  match j with
  | JObj f => match assoc key f with Some _ => true | None => false end
  | _ => false
  end.

(** [j[key]] with a string key *)
Definition py_getitem (j : json) (key : string) : result json :=
  match j with
  | JObj f =>
      match assoc key f with
      | Some v => Ok v
      | None => Raise (KeyError key)
      end
  | JArr _ => Raise (TypeError "list indices must be integers or slices, not str")
  | JStr _ => Raise (TypeError "string indices must be integers")
  | _ => Raise (TypeError "object is not subscriptable")
  end.

(** [j.get(key, default)] *)
Definition py_get (j : json) (key : string) (default : json) : result json :=
  match j with
  | JObj f => Ok (match assoc key f with Some v => v | None => default end)
  | _ => Raise (AttributeError "object has no attribute 'get'")
  end.

(** [j.replace(old, new)]: only a [str] has the method. *)
Definition py_replace_method (j : json) (old new : ascii) : result string :=
  match j with
  | JStr s => Ok (py_replace old new s)
  | _ => Raise (AttributeError "object has no attribute 'replace'")
  end.

Fixpoint chars (s : string) : list json :=
  match s with
  | EmptyString => []
  | String c s' => JStr (String c EmptyString) :: chars s'
  end.

(** The items a [for] loop (or a comprehension) visits in [j]: the
    elements of a list, the keys of a dict, the characters of a string. *)
Definition py_iter (j : json) : result (list json) :=
  match j with
  | JArr l => Ok l
  | JObj f => Ok (map (λ kv, JStr (fst kv)) f)
  | JStr s => Ok (chars s)
  | _ => Raise (TypeError "object is not iterable")
  end.

Fixpoint mapM {A B : Type} (f : A → result B) (l : list A) : result (list B) :=
  match l with
  | [] => Ok []
  | x :: xs =>
      let* y := f x in
      let* ys := mapM f xs in
      Ok (y :: ys)
  end.

(** The registry-format manifests of the data model: an object with
    [config.digest] a string and [layers] a list of objects whose
    [digest] is a string.  Returns the config digest and the layer
    digests in manifest order. *)
Definition layer_digest (layer : json) : option string :=
  match py_getitem layer "digest" with
  | Ok (JStr d) => Some d
  | _ => None
  end.

Definition manifest_digests (m : json) : option (string * list string) :=
  match m with
  | JObj f =>
      match assoc "config" f, assoc "layers" f with
      | Some c, Some (JArr ls) =>
          match py_getitem c "digest" with
          | Ok (JStr cd) =>
              match mapM (λ l, match layer_digest l with
                               | Some d => Ok d
                               | None => Raise (KeyError "digest")
                               end) ls with
              | Ok ds => Some (cd, ds)
              | Raise _ => None
              end
          | _ => None
          end
      | _, _ => None
      end
  | _ => None
  end.

(** ** The world: files, write permissions and the registry *)

Inductive content : Type :=
| Doc (j : json)
| Bytes (b : string)
| Archive (members : list (string * content)).

(** What the registry answers to one call of [requests.get]: nothing (the
    connection fails), a response with its status and body, or a
    response whose body breaks off while it is read, after [received]. *)
Inductive answer : Type :=
| NoAnswer
| Answer (status : Z) (body : content)
| Interrupted (status : Z) (received : content).

(** The arguments from which the URL of a request is built. *)
Inductive request : Type :=
| ManifestRequest (harbor_host project_name image_name image_ref : string)
| BlobRequest (harbor_host project_name image_name : string) (blob_digest : json).

(** [files]: the regular files, by path.  [locked]: the paths that cannot
    be opened for writing (read-only file, missing parent directory, ...)
    and the directories that cannot be created.  [network]: the answers
    to the calls of [requests.get] still to come, in order; when it is
    exhausted the connection fails.  [exchanges]: the calls made so far,
    oldest first, each with what it handed to the program: the response,
    with its body as far as it could be read, or nothing when the call
    raised. *)
Record world : Type := World {
  files : gmap string content;
  locked : gset string;
  network : list answer;
  exchanges : list (request * answer)
}.

Definition set_files (w : world) (fs : gmap string content) : world :=
  World fs (locked w) (network w) (exchanges w).

Definition io (A : Type) : Type := world → result A * world.

Definition io_ret {A : Type} (a : A) : io A := λ w, (Ok a, w).

Definition io_raise {A : Type} (e : exn) : io A := λ w, (Raise e, w).

Definition io_lift {A : Type} (r : result A) : io A := λ w, (r, w).

Definition io_bind {A B : Type} (m : io A) (k : A → io B) : io B :=
  λ w, match m w with
       | (Ok a, w') => k a w'
       | (Raise e, w') => (Raise e, w')
       end.

(** [try: m except Exception as e: ...]: the outcome of [m] as a value. *)
Definition io_try {A : Type} (m : io A) : io (result A) :=
  λ w, let '(r, w') := m w in (Ok r, w').

Notation "'let!' x ':=' m 'in' k" := (io_bind m (λ x, k))
  (at level 10, x pattern, m at level 100, k at level 200).

(** [os.path.exists(p)] *)
Definition file_present (w : world) (p : string) : bool :=
  match files w !! p with Some _ => true | None => false end.

Definition path_exists (p : string) : io bool :=
  λ w, (Ok (file_present w p), w).

(** [open(p, "w")] followed by writing [c] and closing. *)
Definition write_file (p : string) (c : content) : io unit :=
  λ w, if decide (p ∈ locked w) then (Raise (OSError p), w)
       else (Ok (), set_files w (<[p := c]> (files w))).

(** [json.load] on the file at [p], with the [JSONDecodeError] handler of
    [create_image_tar]. *)
Definition load_manifest (p : string) : io json :=
  λ w, match files w !! p with
       | Some (Doc j) => (Ok j, w)
       | Some _ => (Raise (ValueError "Manifest file is not valid JSON"), w)
       | None => (Raise (OSError p), w)
       end.

Fixpoint last_char (s : string) : option ascii :=
  match s with
  | EmptyString => None
  | String c EmptyString => Some c
  | String _ s' => last_char s'
  end.

(** [os.path.join(a, b)] (POSIX) *)
Definition os_path_join (a b : string) : string :=
  if String.prefix "/" b then b
  else match last_char a with
       | None => b
       | Some c => if Ascii.eqb c "/" then a +:+ b else a +:+ "/" +:+ b
       end.

(** [tarfile.open(p, "w")]: the archive file is created empty. *)
Definition tar_open (p : string) : io unit := write_file p (Archive []).

(** [arcname.lstrip("/")]: a member name is stored without its leading
    slashes. *)
Fixpoint lstrip_slash (s : string) : string :=
  match s with
  | String c s' => if Ascii.eqb c "/" then lstrip_slash s' else s
  | EmptyString => EmptyString
  end.

(** The paths of which [p] names a descendant: the non-empty prefixes of
    [p] that end where a [/] follows. *)
Fixpoint ancestors_from (prefix rest : string) : list string :=
  match rest with
  | EmptyString => []
  | String c rest' =>
      (if Ascii.eqb c "/" && negb (String.eqb prefix EmptyString) then [prefix] else []) ++
      ancestors_from (prefix +:+ String c EmptyString) rest'
  end.

Definition ancestors (p : string) : list string := ancestors_from EmptyString p.

(** Whether the directory [p] exists or can be created: [p] is not empty,
    neither [p] nor one of its ancestors is a regular file, and nothing
    else prevents its creation. *)
Definition dir_ready (w : world) (p : string) : bool :=
  negb (String.eqb p EmptyString) &&
  forallb (λ q, negb (file_present w q)) (p :: ancestors p) &&
  bool_decide (p ∉ locked w).

(** [os.makedirs(p, exist_ok=True)] *)
Definition makedirs (p : string) : io unit :=
  λ w, if dir_ready w p then (Ok (), w) else (Raise (OSError p), w).

(** [tar.add(name, arcname=arcname)] on the archive open at [tar_path]:
    the archive itself is never added; any other file is appended under
    [arcname] without its leading slashes. *)
Definition tar_add (tar_path name arcname : string) : io unit :=
  λ w, if decide (name = tar_path) then (Ok (), w)
       else match files w !! name with
            | None => (Raise (OSError name), w)
            | Some c =>
                let members :=
                  match files w !! tar_path with
                  | Some (Archive ms) => ms
                  | _ => []
                  end in
                (Ok (), set_files w
                          (<[tar_path := Archive (members ++ [(lstrip_slash arcname, c)])]>
                             (files w)))
            end.

(** ** Archive assembler *)

(** The repo tag recorded in the archive (lines 175-181). *)
Definition repo_tag_of (pull_link : string) : result string :=
  if py_in "@sha256:" pull_link then
    let* (repo, digest) := unpack2 (py_split "@sha256:" pull_link) in
    Ok (repo +:+ ":sha256-" +:+ digest)
  else Ok pull_link.

(** The digest-to-filename mapping, on string digests. *)
Definition config_file_name (digest : string) : string :=
  py_replace ":" "_" digest +:+ ".json".

Definition layer_file_name (digest : string) : string :=
  py_replace ":" "_" digest +:+ ".tar.gz".

(** [manifest["config"]["digest"].replace(":", "_") + ".json"] *)
Definition config_file_of (manifest : json) : result string :=
  let* config := py_getitem manifest "config" in
  let* digest := py_getitem config "digest" in
  let* name := py_replace_method digest ":" "_" in
  Ok (name +:+ ".json").

(** [layer["digest"].replace(":", "_") + ".tar.gz"] *)
Definition layer_file_of (layer : json) : result string :=
  let* digest := py_getitem layer "digest" in
  let* name := py_replace_method digest ":" "_" in
  Ok (name +:+ ".tar.gz").

(** The comprehension over [manifest["layers"]]. *)
Definition layer_files_of (manifest : json) : result (list string) :=
  let* layers := py_getitem manifest "layers" in
  let* items := py_iter layers in
  mapM layer_file_of items.

Fixpoint check_layers (output_dir : string) (layer_files : list string) : io unit :=
  match layer_files with
  | [] => io_ret ()
  | layer_file :: rest =>
      let layer_path := os_path_join output_dir layer_file in
      let! present := path_exists layer_path in
      if negb present then
        io_raise (FileNotFoundError ("Layer file not found: " +:+ layer_path))
      else check_layers output_dir rest
  end.

Fixpoint add_layers (output_dir tar_path : string) (layer_files : list string) : io unit :=
  match layer_files with
  | [] => io_ret ()
  | layer_file :: rest =>
      let layer_path := os_path_join output_dir layer_file in
      let! _ := tar_add tar_path layer_path layer_file in
      add_layers output_dir tar_path rest
  end.

(** The loader-format manifest written into the archive. *)
Definition docker_manifest (config_digest repo_tag : string) (layer_files : list string) : json :=
  JArr [JObj [("Config", JStr config_digest);
              ("RepoTags", JArr [JStr repo_tag]);
              ("Layers", JArr (map JStr layer_files))]].

(** The [with tarfile.open(tar_path, "w") as tar:] block. *)
Definition write_archive (output_dir tar_path config_digest : string)
    (layer_files : list string) : io unit :=
  let docker_manifest_path := os_path_join output_dir "manifest.json" in
  let config_path := os_path_join output_dir config_digest in
  let! _ := tar_open tar_path in
  let! _ := tar_add tar_path docker_manifest_path "manifest.json" in
  let! _ := tar_add tar_path config_path config_digest in
  add_layers output_dir tar_path layer_files.

Definition create_image_tar (output_dir tar_path pull_link : string) : io unit :=
  let manifest_path := os_path_join output_dir "manifest.json" in
  let! present := path_exists manifest_path in
  if negb present then
    io_raise (FileNotFoundError ("Manifest file not found: " +:+ manifest_path))
  else
  let! manifest := load_manifest manifest_path in
  if negb (py_truthy manifest) then
    io_raise (ValueError "Manifest file is empty or invalid.")
  else if negb (is_dict manifest) then
    io_raise (ValueError "Manifest file is not in the expected format (expected a dictionary).")
  else if negb (dict_has "config" manifest) || negb (dict_has "layers" manifest) then
    io_raise (ValueError "Manifest file is not in the expected format (missing 'config' or 'layers').")
  else
  let! config_digest := io_lift (config_file_of manifest) in
  let! layer_files := io_lift (layer_files_of manifest) in
  let config_path := os_path_join output_dir config_digest in
  let! present := path_exists config_path in
  if negb present then
    io_raise (FileNotFoundError ("Config file not found: " +:+ config_path))
  else
  let! _ := check_layers output_dir layer_files in
  let! repo_tag := io_lift (repo_tag_of pull_link) in
  let docker_manifest_path := os_path_join output_dir "manifest.json" in
  let! _ := write_file docker_manifest_path
              (Doc (docker_manifest config_digest repo_tag layer_files)) in
  write_archive output_dir tar_path config_digest layer_files.

(** Relations used to state what a run leaves behind: [w'] differs from
    [w] at most in the file at [tar_path]; the file at [tar_path] is an
    archive. *)
Definition same_except (tar_path : string) (w w' : world) : Prop :=
  locked w' = locked w ∧ network w' = network w ∧ exchanges w' = exchanges w ∧
  ∀ p, p ≠ tar_path → files w' !! p = files w !! p.

Definition archive_at (tar_path : string) (w : world) : Prop :=
  ∃ members, files w !! tar_path = Some (Archive members).

(** ** Registry client *)

(** What a call that is answered with [a] hands to the program: a body
    that breaks off makes the call raise when the call itself reads the
    body, and is handed over as far as it goes when the body is left to
    be read as a stream. *)
Definition handed (stream : bool) (a : answer) : answer :=
  match a with
  | Interrupted status received => if stream then Answer status received else NoAnswer
  | _ => a
  end.


(** The world after a call of [requests.get]: the registry's next answer
    is consumed and the call recorded. *)
Definition after_get (stream : bool) (r : request) (w : world) : world :=
  World (files w) (locked w) (tail (network w))
        (exchanges w ++ [(r, handed stream (hd NoAnswer (network w)))]).

(** [requests.get(url, ...)]: the body is read before the call returns;
    no answer, or a body that breaks off, is a connection error. *)
Definition http_get (r : request) : io (Z * content) :=
  λ w, match hd NoAnswer (network w) with
       | Answer status body => (Ok (status, body), after_get false r w)
       | _ => (Raise (Exception "connection error"), after_get false r w)
       end.

(** [requests.get(url, ..., stream=True)]: the call returns when the
    status has arrived; the body is read afterwards, by [iter_content].
    The result holds the status, the part of the body that can be read,
    and whether that is the whole body. *)
Definition http_get_stream (r : request) : io (Z * content * bool) :=
  λ w, match hd NoAnswer (network w) with
       | Answer status body => (Ok (status, body, true), after_get true r w)
       | Interrupted status received => (Ok (status, received, false), after_get true r w)
       | NoAnswer => (Raise (Exception "connection error"), after_get true r w)
       end.

Definition get_manifest (harbor_host project_name image_name image_ref : string) : io json :=
  let! (status_code, body) :=
    http_get (ManifestRequest harbor_host project_name image_name image_ref) in
  if negb (status_code =? 200)%Z then
    io_raise (Exception "Failed to fetch manifest")
  else
    match body with
    | Doc j => io_ret j
    | _ => io_raise (ValueError "response body is not valid JSON")
    end.

(** The file at [blob_path] is opened for writing before the first chunk
    is read, and closed by the [with] statement also when the stream
    breaks: it then holds the chunks read so far. *)
Definition download_blob (harbor_host project_name image_name : string)
    (blob_digest : json) (output_dir : string) (is_config : bool) : io string :=
  let! (status_code, body, complete) :=
    http_get_stream (BlobRequest harbor_host project_name image_name blob_digest) in
  if negb (status_code =? 200)%Z then
    io_raise (Exception "Failed to download blob")
  else
    let! name := io_lift (py_replace_method blob_digest ":" "_") in
    let blob_path :=
      os_path_join output_dir (name +:+ (if is_config then ".json" else ".tar.gz")) in
    let! _ := write_file blob_path body in
    if complete then io_ret blob_path
    else io_raise (Exception "connection broken").

(** The layer loop of [pull_image]; [false] when a failed download made
    [pull_image] return. *)
Fixpoint download_layers (harbor_host project_name image_name output_dir : string)
    (layers : list json) : io bool :=
  match layers with
  | [] => io_ret true
  | layer :: rest =>
      let! blob_digest := io_lift (py_getitem layer "digest") in
      let! r := io_try (download_blob harbor_host project_name image_name
                          blob_digest output_dir false) in
      match r with
      | Raise _ => io_ret false
      | Ok _ => download_layers harbor_host project_name image_name output_dir rest
      end
  end.

(** The items the layer loop visits: [manifest.get("layers", [])]. *)
Definition layer_items (manifest : json) : result (list json) :=
  let* layers := py_get manifest "layers" (JArr []) in
  py_iter layers.

(** What a run of [pull_image] that returns has printed last. *)
Inductive pull_outcome : Type :=
| ManifestFetchFailed
| ConfigDownloadFailed
| LayerDownloadFailed
| Pulled.

Definition pull_image (harbor_host project_name image_name image_ref output_dir : string)
  : io pull_outcome :=
  let! _ := makedirs output_dir in
  let! r := io_try (get_manifest harbor_host project_name image_name image_ref) in
  match r with
  | Raise _ => io_ret ManifestFetchFailed
  | Ok manifest =>
      let! config_digest := io_lift (
        let* config := py_getitem manifest "config" in
        py_getitem config "digest") in
      let! name := io_lift (py_replace_method config_digest ":" "_") in
      let config_file := name +:+ ".json" in
      let config_path := os_path_join output_dir config_file in
      let! present := path_exists config_path in
      let! r :=
        if negb present then
          io_try (download_blob harbor_host project_name image_name
                    config_digest output_dir true)
        else io_ret (Ok config_path) in
      match r with
      | Raise _ => io_ret ConfigDownloadFailed
      | Ok _ =>
          let! items := io_lift (layer_items manifest) in
          let! completed :=
            download_layers harbor_host project_name image_name output_dir items in
          if negb completed then io_ret LayerDownloadFailed
          else
            let manifest_path := os_path_join output_dir "manifest.json" in
            let! _ := write_file manifest_path (Doc manifest) in
            io_ret Pulled
      end
  end.

(** The record of a call shows status 200 and, for the manifest, a JSON
    body.  Every call that returned what the program asked for has such
    a record; so has a blob download whose body broke off after status
    200, recorded with the part received. *)
Definition exchange_ok (x : request * answer) : bool :=
  match x with
  | (ManifestRequest _ _ _ _, Answer status (Doc _)) => (status =? 200)%Z
  | (BlobRequest _ _ _ _, Answer status _) => (status =? 200)%Z
  | _ => false
  end.


(** The files after the layer loop has stored the given blobs, in order. *)
Fixpoint write_blobs (output_dir : string) (fs : gmap string content)
    (blobs : list (string * content)) : gmap string content :=
  match blobs with
  | [] => fs
  | (digest, body) :: rest =>
      write_blobs output_dir
        (<[os_path_join output_dir (layer_file_name digest) := body]> fs) rest
  end.


(** ** Main *)

(** What a run of [main] has printed last. *)
Inductive outcome : Type :=
| ParseError
| PullError
| TarError (e : exn)
| Created.

Definition tar_path_of (image_name image_ref : string) : string :=
  py_replace "/" "_" image_name +:+ "_" +:+ py_replace ":" "_" image_ref +:+ ".tar".

Definition main (pull_link output_dir : string) : io outcome :=
  match parse_docker_pull_link pull_link with
  | Raise (ValueError _) => io_ret ParseError
  | Raise e => io_raise e
  | Ok (harbor_host, project_name, image_name, image_ref) =>
      let! r := io_try (pull_image harbor_host project_name image_name image_ref
                          output_dir) in
      match r with
      | Raise _ => io_ret PullError
      | Ok _ =>
          let tar_path := tar_path_of image_name image_ref in
          let! r := io_try (create_image_tar output_dir tar_path pull_link) in
          match r with
          | Raise e => io_ret (TarError e)
          | Ok _ => io_ret Created
          end
      end
  end.


(** ** Example data: a manifest with one layer, and a registry serving it *)

Definition registry_doc : json :=
  JObj [("config", JObj [("digest", JStr "sha256:aaa")]);
        ("layers", JArr [JObj [("digest", JStr "sha256:bbb")]])].

(** A registry that serves the manifest, the config blob and the layer. *)
Definition registry_world : world :=
  World ∅ ∅
    [Answer 200 (Doc registry_doc); Answer 200 (Bytes "cfg"); Answer 200 (Bytes "layer")]
    [].

(** An output directory after a pull: manifest, config file, layer file. *)
Definition pulled_dir : gmap string content :=
  <["out/manifest.json" := Doc registry_doc]>
    (<["out/sha256_aaa.json" := Bytes "cfg"]>
       (<["out/sha256_bbb.tar.gz" := Bytes "layer"]> ∅)).


(** A registry that serves the manifest and the config blob, and answers
    the layer request with status 404. *)
Definition failing_registry_world : world :=
  World ∅ ∅
    [Answer 200 (Doc registry_doc); Answer 200 (Bytes "cfg"); Answer 404 (Bytes "not found")]
    [].

(** The same directory without the layer file. *)
Definition dir_without_layer : gmap string content :=
  <["out/manifest.json" := Doc registry_doc]>
    (<["out/sha256_aaa.json" := Bytes "cfg"]> ∅).

(** A directory holding a layer file, and a registry whose answer to the
    next download breaks off. *)
Definition broken_download_world : world :=
  World (<["out/sha256_bbb.tar.gz" := Bytes "old layer"]> ∅) ∅
        [Interrupted 200 (Bytes "lay")] [].

(** ** Registry URLs *)

Definition get_manifest_url (harbor_host project_name image_name image_ref : string)
  : string :=
  "https://" +:+ harbor_host +:+ "/v2/" +:+ project_name +:+ "/" +:+ image_name
    +:+ "/manifests/" +:+ image_ref.

Definition get_blob_url (harbor_host project_name image_name blob_digest : string)
  : string :=
  "https://" +:+ harbor_host +:+ "/v2/" +:+ project_name +:+ "/" +:+ image_name
    +:+ "/blobs/" +:+ blob_digest.

(** * Properties *)

(** ** Strings *)

Lemma string_app_cons (x : ascii) (a b : string) :
  String x a +:+ b = String x (a +:+ b).
Proof. reflexivity. Qed.

Lemma string_app_nil_l (a : string) : "" +:+ a = a.
Proof. reflexivity. Qed.

Lemma string_app_assoc (a b c : string) : (a +:+ b) +:+ c = a +:+ (b +:+ c).
Proof.
  induction a as [|x a IH]; [done |].
  by rewrite !string_app_cons, IH.
Qed.

Lemma string_app_nil_r (a : string) : a +:+ "" = a.
Proof.
  induction a as [|x a IH]; [done |].
  by rewrite string_app_cons, IH.
Qed.

Lemma prefix_nil (s : string) : String.prefix "" s = true.
Proof. by destruct s. Qed.

Lemma prefix_app (p r : string) : String.prefix p (p +:+ r) = true.
Proof.
  induction p as [|x p IH]; [apply prefix_nil |].
  rewrite string_app_cons. simpl.
  destruct (ascii_dec x x); [done | congruence].
Qed.

Lemma prefix_true (p s : string) :
  String.prefix p s = true → ∃ r, s = p +:+ r.
Proof.
  revert s. induction p as [|x p IH]; intros s H; [by exists s |].
  destruct s as [|y s]; simpl in H; [done |].
  destruct (ascii_dec x y) as [->|]; [| done].
  destruct (IH s H) as [r ->]. by exists r.
Qed.

Lemma prefix_empty_false (sep : string) : sep ≠ "" → String.prefix sep "" = false.
Proof. by destruct sep. Qed.

Lemma count_char_app (c : ascii) (a b : string) :
  count_char c (a +:+ b) = count_char c a + count_char c b.
Proof.
  induction a as [|x a IH]; [done |].
  rewrite string_app_cons. simpl. rewrite IH. lia.
Qed.

Lemma last_char_app (a b : string) :
  b ≠ "" → last_char (a +:+ b) = last_char b.
Proof.
  intros Hb. induction a as [|x a IH]; [done |].
  rewrite string_app_cons. simpl. rewrite IH.
  destruct (a +:+ b) eqn:E; [| done].
  destruct a, b; simplify_eq/=.
Qed.

(** ** Substring occurrences and membership *)

Section occurrences.
Variable sep : string.

Lemma occurrences_app_ge (x s : string) :
  occurrences sep s ≤ occurrences sep (x +:+ s).
Proof.
  induction x as [|c x IH]; [done |].
  change (occurrences sep (String c x +:+ s)) with
    ((if String.prefix sep (String c (x +:+ s)) then 1 else 0)
     + occurrences sep (x +:+ s)).
  lia.
Qed.

Lemma occurrences_unfold (s : string) :
  occurrences sep s =
  (if String.prefix sep s then 1 else 0) +
  match s with "" => 0 | String _ s' => occurrences sep s' end.
Proof. by destruct s. Qed.

Lemma occurrences_here (r : string) : 1 ≤ occurrences sep (sep +:+ r).
Proof. rewrite occurrences_unfold, prefix_app. lia. Qed.

Lemma occurrences_at (a r : string) : 1 ≤ occurrences sep (a +:+ sep +:+ r).
Proof.
  etrans; [apply (occurrences_here r) | apply occurrences_app_ge].
Qed.

Lemma py_in_unfold (s : string) :
  py_in sep s =
  String.prefix sep s ||
  match s with "" => false | String _ s' => py_in sep s' end.
Proof. by destruct s. Qed.

Lemma py_in_occurrences (s : string) :
  py_in sep s = true ↔ 1 ≤ occurrences sep s.
Proof.
  induction s as [|c s IH]; rewrite py_in_unfold, occurrences_unfold;
    destruct (String.prefix sep _); cbn [orb]; try (split; (done || lia)).
  rewrite IH. split; lia.
Qed.

Lemma py_in_false (s : string) :
  py_in sep s = false ↔ occurrences sep s = 0.
Proof.
  destruct (py_in sep s) eqn:E.
  - apply py_in_occurrences in E. split; [done | lia].
  - split; [intros _ | done].
    destruct (decide (1 ≤ occurrences sep s)) as [H|H]; [| lia].
    apply py_in_occurrences in H. congruence.
Qed.

Lemma py_in_split (s : string) :
  py_in sep s = true → ∃ a b, s = a +:+ sep +:+ b.
Proof.
  induction s as [|c s IH]; rewrite py_in_unfold; intros H.
  - rewrite orb_false_r in H. apply prefix_true in H as [r ->].
    by exists "", r.
  - apply orb_true_iff in H as [H|H].
    + apply prefix_true in H as [r Hr]. exists "", r. by rewrite Hr.
    + destruct (IH H) as (a & b & ->). by exists (String c a), b.
Qed.
End occurrences.

(** ** Splitting and joining *)

Lemma split_go_skip (sep x r : string) :
  split_go sep (String.length x) (x +:+ r) = split_go sep 0 r.
Proof. induction x as [|c x IH]; [done | apply IH]. Qed.

Lemma split_go_match_cons (c : ascii) (sep' r : string) :
  split_go (String c sep') 0 (String c sep' +:+ r) =
  let '(p, ps) := split_go (String c sep') 0 r in ("", p :: ps).
Proof.
  rewrite string_app_cons at 1. cbn [split_go].
  rewrite <- string_app_cons, prefix_app. cbn [String.length].
  replace (S (String.length sep') - 1) with (String.length sep') by lia.
  by rewrite split_go_skip.
Qed.

Section split.
Variable sep : string.
Hypothesis sep_nonempty : sep ≠ "".

Lemma split_go_match (r : string) :
  split_go sep 0 (sep +:+ r) =
  let '(p, ps) := split_go sep 0 r in ("", p :: ps).
Proof using sep_nonempty.
  destruct sep; [done | apply split_go_match_cons].
Qed.

Lemma split_go_nomatch (c : ascii) (s : string) :
  String.prefix sep (String c s) = false →
  split_go sep 0 (String c s) =
  let '(p, ps) := split_go sep 0 s in (String c p, ps).
Proof. intros H. cbn [split_go]. by rewrite H. Qed.

Lemma split_go_none (s : string) :
  occurrences sep s = 0 → split_go sep 0 s = (s, []).
Proof.
  induction s as [|c s IH]; [done |].
  cbn [occurrences]. intros H.
  destruct (String.prefix sep (String c s)) eqn:E; [lia |].
  rewrite split_go_nomatch by done. rewrite IH by lia. done.
Qed.

Lemma split_go_one (a b : string) :
  occurrences sep (a +:+ sep +:+ b) = 1 →
  split_go sep 0 (a +:+ sep +:+ b) = (a, [b]).
Proof using sep_nonempty.
  induction a as [|c a IH]; intros H.
  - change ("" +:+ sep +:+ b) with (sep +:+ b) in *.
    rewrite split_go_match.
    assert (occurrences sep b = 0) as Hb.
    { destruct sep as [|c sep'] eqn:E; [done |].
      rewrite <- E in *.
      assert (sep +:+ b = String c (sep' +:+ b)) as Es by by rewrite E.
      rewrite Es in H. cbn [occurrences] in H.
      rewrite <- Es, prefix_app in H.
      pose proof (occurrences_app_ge sep sep' b). lia. }
    by rewrite split_go_none.
  - change (String c a +:+ sep +:+ b) with (String c (a +:+ sep +:+ b)) in *.
    cbn [occurrences] in H.
    pose proof (occurrences_at sep a b).
    destruct (String.prefix sep (String c (a +:+ sep +:+ b))) eqn:E; [lia |].
    rewrite split_go_nomatch by done. rewrite IH by lia. done.
Qed.

Lemma py_split_one (a b : string) :
  occurrences sep (a +:+ sep +:+ b) = 1 →
  py_split sep (a +:+ sep +:+ b) = [a; b].
Proof using sep_nonempty.
  intros H. unfold py_split. by rewrite split_go_one.
Qed.
End split.

Lemma string_length_app (a b : string) :
  String.length (a +:+ b) = String.length a + String.length b.
Proof.
  induction a as [|x a IH]; [done |].
  rewrite string_app_cons. simpl. by rewrite IH.
Qed.

Lemma py_join_cons_head (sep : string) (c : ascii) (p : string) (ps : list string) :
  py_join sep (String c p :: ps) = String c (py_join sep (p :: ps)).
Proof. by destruct ps. Qed.

Lemma py_join_cons (sep x : string) (xs : list string) :
  xs ≠ [] → py_join sep (x :: xs) = x +:+ sep +:+ py_join sep xs.
Proof. by destruct xs. Qed.

Section join_split.
Variable sep : string.
Hypothesis sep_nonempty : sep ≠ "".

Lemma py_join_split_go (n : nat) (s : string) :
  String.length s < n →
  py_join sep ((split_go sep 0 s).1 :: (split_go sep 0 s).2) = s.
Proof using sep_nonempty.
  revert s. induction n as [|n IH]; intros s Hn; [lia |].
  destruct (String.prefix sep s) eqn:E.
  - apply prefix_true in E as [r ->].
    rewrite split_go_match by done.
    rewrite string_length_app in Hn.
    assert (0 < String.length sep) by (destruct sep; [done | simpl; lia]).
    specialize (IH r ltac:(lia)).
    destruct (split_go sep 0 r) as [p ps]. simpl in *.
    by rewrite IH.
  - destruct s as [|c s]; [done |].
    rewrite split_go_nomatch by done.
    specialize (IH s ltac:(simpl in Hn; lia)).
    destruct (split_go sep 0 s) as [p ps]. simpl fst in *. simpl snd in *.
    by rewrite py_join_cons_head, IH.
Qed.

(** Joining the pieces of a split with the separator gives the string back. *)
Lemma py_join_split (s : string) : py_join sep (py_split sep s) = s.
Proof using sep_nonempty.
  unfold py_split.
  pose proof (py_join_split_go (S (String.length s)) s ltac:(lia)) as H.
  by destruct (split_go sep 0 s).
Qed.
End join_split.

(** ** Splitting at a single character *)

Lemma prefix_char (c d : ascii) (s : string) :
  String.prefix (String c "") (String d s) = Ascii.eqb d c.
Proof.
  simpl. destruct (ascii_dec c d) as [->|Hne].
  - by rewrite prefix_nil, Ascii.eqb_refl.
  - symmetry. apply Ascii.eqb_neq. congruence.
Qed.

Lemma occurrences_char (c : ascii) (s : string) :
  occurrences (String c "") s = count_char c s.
Proof.
  induction s as [|d s IH]; [done |].
  rewrite occurrences_unfold, prefix_char, IH. done.
Qed.

Lemma split_char_length (c : ascii) (s : string) :
  length (py_split (String c "") s) = S (count_char c s).
Proof.
  unfold py_split.
  assert (length (split_go (String c "") 0 s).2 = count_char c s) as H.
  { induction s as [|d s IH]; [done |].
    cbn [split_go]. rewrite prefix_char. cbn [String.length count_char].
    change (1 - 1) with 0.
    destruct (Ascii.eqb d c); destruct (split_go (String c "") 0 s);
      simpl in *; lia. }
  destruct (split_go (String c "") 0 s). simpl in *. lia.
Qed.

Lemma py_in_char (c : ascii) (s : string) :
  py_in (String c "") s = true ↔ 1 ≤ count_char c s.
Proof. by rewrite py_in_occurrences, occurrences_char. Qed.

Lemma split_char_pieces (c : ascii) (s : string) :
  Forall (λ p, count_char c p = 0) (py_split (String c "") s).
Proof.
  unfold py_split.
  assert (count_char c (split_go (String c "") 0 s).1 = 0 ∧
          Forall (λ p, count_char c p = 0) (split_go (String c "") 0 s).2) as H.
  { induction s as [|d s [IH1 IH2]]; [by split |].
    cbn [split_go]. rewrite prefix_char. cbn [String.length].
    change (1 - 1) with 0.
    destruct (Ascii.eqb d c) eqn:E; destruct (split_go (String c "") 0 s);
      simpl in *; [by split; [| constructor] |].
    rewrite E. by split. }
  destruct (split_go (String c "") 0 s). simpl in *.
  destruct H. by constructor.
Qed.

(** ** Reference parser *)

Lemma slash_nonempty : "/" ≠ "".
Proof. done. Qed.

Lemma colon_nonempty : ":" ≠ "".
Proof. done. Qed.

Lemma digest_marker_nonempty : "@sha256:" ≠ "".
Proof. done. Qed.

(** A pull string without scheme and with at least three segments is
    host, project and tail joined by slashes, and the parser goes on to
    split the tail. *)
Lemma parse_segments (s : string) :
  py_in "://" s = false →
  3 ≤ length (py_split "/" s) →
  ∃ host project,
    s = host +:+ "/" +:+ project +:+ "/" +:+ image_and_ref_of s ∧
    count_char "/" host = 0 ∧ count_char "/" project = 0 ∧
    parse_docker_pull_link s =
      let tail := image_and_ref_of s in
      if py_in "@sha256:" tail then
        let* (image_name, image_ref) := unpack2 (py_split "@sha256:" tail) in
        Ok (host, project, image_name, "sha256:" +:+ image_ref)
      else if py_in ":" tail then
        let* (image_name, image_ref) := unpack2 (py_split ":" tail) in
        Ok (host, project, image_name, image_ref)
      else Ok (host, project, tail, "latest").
Proof.
  intros Hscheme Hlen.
  unfold parse_docker_pull_link, image_and_ref_of. rewrite Hscheme.
  destruct (Nat.ltb_spec (length (py_split "/" s)) 3) as [|_]; [lia |].
  pose proof (py_join_split "/" slash_nonempty s) as Hjoin.
  pose proof (split_char_pieces "/" s) as Hpieces.
  destruct (py_split "/" s) as [|host [|project [|x rest]]] eqn:E;
    simpl in Hlen; try lia.
  exists host, project. cbn [nth drop].
  rewrite !py_join_cons in Hjoin by done.
  apply Forall_cons in Hpieces as [Hh Hpieces].
  apply Forall_cons in Hpieces as [Hp _].
  done.
Qed.

(** A tail with exactly one colon splits into the text before and the
    text after it. *)
Lemma split_one_colon (tail : string) :
  count_char ":" tail = 1 →
  ∃ image ref,
    py_split ":" tail = [image; ref] ∧ tail = image +:+ ":" +:+ ref ∧
    count_char ":" image = 0 ∧ count_char ":" ref = 0.
Proof.
  intros Hone.
  pose proof (split_char_length ":" tail) as Hlen.
  pose proof (py_join_split ":" colon_nonempty tail) as Hjoin.
  pose proof (split_char_pieces ":" tail) as Hpieces.
  destruct (py_split ":" tail) as [|image [|ref [|]]]; simpl in Hlen; try lia.
  exists image, ref.
  apply Forall_cons in Hpieces as [Hi Hpieces].
  apply Forall_cons in Hpieces as [Hr _].
  done.
Qed.

(** C1: a pull string [<host>/<project>/<image-path>:<tag>] (no scheme,
    at least three segments, exactly one colon in the tail and no digest
    marker) is parsed, and re-joining the four parts as
    [host/project/image:tag] gives the pull string back. *)
Theorem parse_rejoin_roundtrip (s : string) :
  py_in "://" s = false →
  3 ≤ length (py_split "/" s) →
  count_char ":" (image_and_ref_of s) = 1 →
  py_in "@sha256:" (image_and_ref_of s) = false →
  ∃ parsed, parse_docker_pull_link s = Ok parsed ∧ rejoin parsed = s.
Proof.
  intros Hscheme Hlen Hone Hdigest.
  destruct (parse_segments s Hscheme Hlen) as (host & project & Hs & _ & _ & Hparse).
  destruct (split_one_colon _ Hone) as (image & ref & Hsplit & Htail & _).
  assert (py_in ":" (image_and_ref_of s) = true) as Hcolon
    by (apply py_in_char; lia).
  cbv zeta in Hparse. rewrite Hdigest, Hcolon, Hsplit in Hparse.
  exists (host, project, image, ref). split; [done |].
  unfold rejoin. by rewrite <- Htail.
Qed.

Lemma parse_rejoin_roundtrip_witness :
  ∃ parsed,
    parse_docker_pull_link "harbor.example.com/myproject/nginx:latest" = Ok parsed ∧
    rejoin parsed = "harbor.example.com/myproject/nginx:latest".
Proof.
  apply parse_rejoin_roundtrip; [reflexivity | vm_compute; lia | reflexivity | reflexivity].
Defined.

(** C3 (the claim as stated fails): a tail with two colons and no digest
    marker is not split at its first colon; the two-name unpacking of the
    three pieces raises. *)
Lemma parse_two_colons_raises :
  py_in "@sha256:" (image_and_ref_of "h/p/i:t:u") = false ∧
  py_in ":" (image_and_ref_of "h/p/i:t:u") = true ∧
  parse_docker_pull_link "h/p/i:t:u" =
    Raise (ValueError "too many values to unpack (expected 2)") ∧
  parse_docker_pull_link "h/p/i:t:u" ≠ Ok ("h", "p", "i", "t:u").
Proof. repeat split; (reflexivity || discriminate). Qed.

(** C3 (amended): for a pull string without scheme, with at least three
    segments and no digest marker in the tail, a tail with exactly one
    colon is split there, image the text before and ref the text after
    it; a tail with two or more colons makes the parser raise
    [ValueError]. *)
Theorem parse_colon_tail (s : string) :
  py_in "://" s = false →
  3 ≤ length (py_split "/" s) →
  py_in "@sha256:" (image_and_ref_of s) = false →
  (count_char ":" (image_and_ref_of s) = 1 →
   ∃ host project image ref,
     s = host +:+ "/" +:+ project +:+ "/" +:+ image_and_ref_of s ∧
     image_and_ref_of s = image +:+ ":" +:+ ref ∧
     count_char ":" image = 0 ∧ count_char ":" ref = 0 ∧
     parse_docker_pull_link s = Ok (host, project, image, ref)) ∧
  (2 ≤ count_char ":" (image_and_ref_of s) →
   parse_docker_pull_link s =
     Raise (ValueError "too many values to unpack (expected 2)")).
Proof.
  intros Hscheme Hlen Hdigest.
  destruct (parse_segments s Hscheme Hlen) as (host & project & Hs & _ & _ & Hparse).
  cbv zeta in Hparse. rewrite Hdigest in Hparse.
  split; intros Hcount.
  - destruct (split_one_colon _ Hcount) as (image & ref & Hsplit & Htail & Hi & Hr).
    assert (py_in ":" (image_and_ref_of s) = true) as Hcolon
      by (apply py_in_char; lia).
    rewrite Hcolon, Hsplit in Hparse.
    by exists host, project, image, ref.
  - assert (py_in ":" (image_and_ref_of s) = true) as Hcolon
      by (apply py_in_char; lia).
    rewrite Hcolon in Hparse.
    pose proof (split_char_length ":" (image_and_ref_of s)) as Hpieces.
    destruct (py_split ":" (image_and_ref_of s)) as [|a [|b [|c l]]];
      simpl in Hpieces; try lia.
    done.
Qed.

Lemma parse_colon_tail_witness :
  (count_char ":" (image_and_ref_of "h/p/img/name:v1") = 1 →
   ∃ host project image ref,
     "h/p/img/name:v1" = host +:+ "/" +:+ project +:+ "/" +:+ image_and_ref_of "h/p/img/name:v1" ∧
     image_and_ref_of "h/p/img/name:v1" = image +:+ ":" +:+ ref ∧
     count_char ":" image = 0 ∧ count_char ":" ref = 0 ∧
     parse_docker_pull_link "h/p/img/name:v1" = Ok (host, project, image, ref)) ∧
  (2 ≤ count_char ":" (image_and_ref_of "h/p/img/name:v1") →
   parse_docker_pull_link "h/p/img/name:v1" =
     Raise (ValueError "too many values to unpack (expected 2)")).
Proof.
  apply parse_colon_tail; [reflexivity | vm_compute; lia | reflexivity].
Defined.

(** The slashes of [a/t] all lie before a suffix that has none. *)
Lemma slash_before_suffix (a t r u : string) :
  a +:+ "/" +:+ t = r +:+ u →
  count_char "/" u = 0 →
  ∃ r', r = a +:+ "/" +:+ r' ∧ t = r' +:+ u.
Proof.
  intros Heq Hu. revert r Heq.
  induction a as [|x a IH]; intros [|c r] Heq.
  - rewrite !string_app_nil_l in Heq. subst u. done.
  - rewrite string_app_nil_l, !string_app_cons in Heq. simplify_eq.
    by exists r.
  - rewrite string_app_nil_l in Heq. subst u.
    rewrite string_app_cons in Hu. cbn [count_char] in Hu.
    rewrite count_char_app in Hu. simpl in Hu. lia.
  - rewrite !string_app_cons in Heq. simplify_eq.
    destruct (IH r) as (r' & -> & ->); [done |]. by exists r'.
Qed.

(** C2 (the claim as stated fails): a pull string in which the digest
    marker occurs twice contains [@sha256:bb], yet neither the parser
    nor the repo-tag derivation returns: both unpackings raise. *)
Lemma digest_marker_twice_raises :
  "h/p/i@sha256:aa@sha256:bb" = "h/p/i@sha256:aa" +:+ "@sha256:" +:+ "bb" ∧
  py_in "://" "h/p/i@sha256:aa@sha256:bb" = false ∧
  length (py_split "/" "h/p/i@sha256:aa@sha256:bb") = 3 ∧
  parse_docker_pull_link "h/p/i@sha256:aa@sha256:bb" =
    Raise (ValueError "too many values to unpack (expected 2)") ∧
  repo_tag_of "h/p/i@sha256:aa@sha256:bb" =
    Raise (ValueError "too many values to unpack (expected 2)").
Proof. repeat split; reflexivity. Qed.

(** C2 (amended): for a pull string [<repo>@sha256:<hex>] without scheme,
    with at least three segments, whose digest holds no slash (as no
    hexadecimal text does) and in which the digest marker occurs exactly
    once, the parsed reference is [sha256:<hex>] and the repo tag is
    [<repo>:sha256-<hex>]. *)
Theorem digest_reference (repo hex : string) :
  py_in "://" (repo +:+ "@sha256:" +:+ hex) = false →
  3 ≤ length (py_split "/" (repo +:+ "@sha256:" +:+ hex)) →
  count_char "/" hex = 0 →
  occurrences "@sha256:" (repo +:+ "@sha256:" +:+ hex) = 1 →
  (∃ host project image,
     repo = host +:+ "/" +:+ project +:+ "/" +:+ image ∧
     parse_docker_pull_link (repo +:+ "@sha256:" +:+ hex) =
       Ok (host, project, image, "sha256:" +:+ hex)) ∧
  repo_tag_of (repo +:+ "@sha256:" +:+ hex) = Ok (repo +:+ ":sha256-" +:+ hex).
Proof.
  intros Hscheme Hlen Hhex Hone.
  set (s := repo +:+ "@sha256:" +:+ hex) in *.
  split.
  - destruct (parse_segments s Hscheme Hlen) as (host & project & Hs & _ & _ & Hparse).
    assert (count_char "/" ("@sha256:" +:+ hex) = 0) as Hsuffix
      by by rewrite count_char_app, Hhex.
    destruct (slash_before_suffix host _ repo _ (eq_sym Hs) Hsuffix)
      as (r1 & Hrepo & Hrest).
    destruct (slash_before_suffix project _ r1 _ Hrest Hsuffix)
      as (image & -> & Htail).
    exists host, project, image. split; [done |].
    assert (occurrences "@sha256:" (image_and_ref_of s) = 1) as Htail1.
    { pose proof (occurrences_at "@sha256:" image hex) as Hge.
      rewrite <- Htail in Hge.
      pose proof (occurrences_app_ge "@sha256:"
                    (host +:+ "/" +:+ project +:+ "/") (image_and_ref_of s)) as Hle.
      rewrite !string_app_assoc, <- Hs, Hone in Hle. lia. }
    assert (py_in "@sha256:" (image_and_ref_of s) = true) as Hin
      by (apply py_in_occurrences; lia).
    cbv zeta in Hparse. rewrite Hin in Hparse.
    rewrite Htail in Htail1, Hparse.
    by rewrite (py_split_one _ digest_marker_nonempty _ _ Htail1) in Hparse.
  - unfold repo_tag_of.
    assert (py_in "@sha256:" s = true) as ->
      by (apply py_in_occurrences; lia).
    subst s. by rewrite (py_split_one _ digest_marker_nonempty _ _ Hone).
Qed.

Lemma digest_reference_witness :
  (∃ host project image,
     "harbor.example.com/myproject/random-image/random-name" =
       host +:+ "/" +:+ project +:+ "/" +:+ image ∧
     parse_docker_pull_link
       ("harbor.example.com/myproject/random-image/random-name" +:+ "@sha256:" +:+ "0a1b") =
       Ok (host, project, image, "sha256:" +:+ "0a1b")) ∧
  repo_tag_of
    ("harbor.example.com/myproject/random-image/random-name" +:+ "@sha256:" +:+ "0a1b") =
    Ok ("harbor.example.com/myproject/random-image/random-name" +:+ ":sha256-" +:+ "0a1b").
Proof.
  apply digest_reference; [reflexivity | vm_compute; lia | reflexivity | reflexivity].
Defined.

(** ** Archive assembler: the existence checks *)

Lemma set_files_id (w : world) : set_files w (files w) = w.
Proof. by destruct w. Qed.

Lemma check_layers_frame (od : string) (ls : list string) (w w' : world) (r : result ()) :
  check_layers od ls w = (r, w') → w' = w.
Proof.
  induction ls as [|f ls IH]; cbn [check_layers]; [by intros [= _ <-] |].
  unfold io_bind, path_exists, file_present, io_raise.
  destruct (files w !! os_path_join od f); simpl; [apply IH | by intros [= _ <-]].
Qed.

Lemma check_layers_ok (od : string) (ls : list string) (w : world) :
  Forall (λ f, is_Some (files w !! os_path_join od f)) ls →
  check_layers od ls w = (Ok (), w).
Proof.
  induction 1 as [|f ls [c Hc] _ IH]; [done |].
  cbn [check_layers]. unfold io_bind, path_exists, file_present. by rewrite Hc.
Qed.

Lemma check_layers_ok_inv (od : string) (ls : list string) (w w' : world) :
  check_layers od ls w = (Ok (), w') →
  Forall (λ f, is_Some (files w !! os_path_join od f)) ls.
Proof.
  induction ls as [|f ls IH]; [by constructor |].
  cbn [check_layers]. unfold io_bind, path_exists, file_present, io_raise.
  destruct (files w !! os_path_join od f) eqn:E; simpl; [| done].
  intros H. constructor; [by eexists | by apply IH].
Qed.

(** The check stops at the first layer file that is absent and names it. *)
Lemma check_layers_missing (od : string) (pre post : list string) (f : string) (w : world) :
  Forall (λ f, is_Some (files w !! os_path_join od f)) pre →
  files w !! os_path_join od f = None →
  check_layers od (pre ++ f :: post) w =
    (Raise (FileNotFoundError ("Layer file not found: " +:+ os_path_join od f)), w).
Proof.
  intros Hpre Hf. induction Hpre as [|g pre [c Hc] _ IH].
  - cbn [app check_layers]. unfold io_bind, path_exists, file_present. by rewrite Hf.
  - rewrite <- app_comm_cons. cbn [check_layers].
    unfold io_bind, path_exists, file_present. by rewrite Hc.
Qed.

(** ** Archive assembler: writing the archive *)

Lemma same_except_refl (tp : string) (w : world) : same_except tp w w.
Proof. by repeat split. Qed.

Lemma same_except_trans (tp : string) (w1 w2 w3 : world) :
  same_except tp w1 w2 → same_except tp w2 w3 → same_except tp w1 w3.
Proof.
  intros (? & ? & ? & H12) (? & ? & ? & H23).
  repeat split; try congruence.
  intros p Hp. by rewrite H23, H12.
Qed.

Lemma tar_add_total (tp name arc : string) (w : world) :
  name = tp ∨ is_Some (files w !! name) →
  ∃ w', tar_add tp name arc w = (Ok (), w') ∧ same_except tp w w' ∧
        (archive_at tp w → archive_at tp w').
Proof.
  intros Hname. unfold tar_add.
  destruct (decide (name = tp)) as [->|Hne].
  - exists w. split; [done |]. split; [apply same_except_refl | done].
  - destruct Hname as [|[c Hc]]; [done |]. rewrite Hc.
    eexists. split; [done |]. split.
    + repeat split. intros p Hp. simpl. by rewrite lookup_insert_ne.
    + intros _. eexists. simpl. by rewrite lookup_insert_eq.
Qed.

Lemma add_layers_total (od tp : string) (ls : list string) (w : world) :
  Forall (λ f, os_path_join od f = tp ∨ is_Some (files w !! os_path_join od f)) ls →
  ∃ w', add_layers od tp ls w = (Ok (), w') ∧ same_except tp w w' ∧
        (archive_at tp w → archive_at tp w').
Proof.
  revert w. induction ls as [|f ls IH]; intros w Hls.
  - exists w. split; [done |]. split; [apply same_except_refl | done].
  - apply Forall_cons in Hls as [Hf Hls]. cbn [add_layers]. unfold io_bind.
    destruct (tar_add_total tp (os_path_join od f) f w Hf) as (w1 & -> & Hsame & Harch).
    destruct (IH w1) as (w2 & -> & Hsame2 & Harch2).
    { eapply Forall_impl; [exact Hls |]. intros g [->|Hg]; [by left |].
      destruct (decide (os_path_join od g = tp)) as [|Hne]; [by left | right].
      destruct Hsame as (_ & _ & _ & Hfiles). by rewrite Hfiles. }
    exists w2. split; [done |]. split; [by eapply same_except_trans | auto].
Qed.

Lemma write_archive_locked (od tp cfile : string) (ls : list string) (w : world) :
  tp ∈ locked w →
  write_archive od tp cfile ls w = (Raise (OSError tp), w).
Proof.
  intros Hl. unfold write_archive, io_bind, tar_open, write_file.
  by destruct (decide (tp ∈ locked w)).
Qed.

(** Once the members are on disk, the archive block fails only when the
    archive cannot be opened for writing. *)
Lemma write_archive_total (od tp cfile : string) (ls : list string) (w : world) :
  tp ∉ locked w →
  is_Some (files w !! os_path_join od "manifest.json") →
  is_Some (files w !! os_path_join od cfile) →
  Forall (λ f, is_Some (files w !! os_path_join od f)) ls →
  ∃ w', write_archive od tp cfile ls w = (Ok (), w') ∧ same_except tp w w' ∧
        archive_at tp w'.
Proof.
  intros Hl Hm Hc Hls. unfold write_archive, io_bind, tar_open, write_file.
  destruct (decide (tp ∈ locked w)); [done |].
  set (w0 := set_files w (<[tp := Archive []]> (files w))).
  assert (same_except tp w w0) as H0.
  { repeat split. intros p Hp. simpl. by rewrite lookup_insert_ne. }
  assert (archive_at tp w0) as A0.
  { exists []. simpl. by rewrite lookup_insert_eq. }
  assert (∀ p, is_Some (files w !! p) → p = tp ∨ is_Some (files w0 !! p)) as Hkeep.
  { intros p Hp. destruct (decide (p = tp)); [by left | right].
    simpl. by rewrite lookup_insert_ne. }
  destruct (tar_add_total tp _ "manifest.json" w0 (Hkeep _ Hm)) as (w1 & -> & H1 & A1).
  assert (∀ p, is_Some (files w !! p) → p = tp ∨ is_Some (files w1 !! p)) as Hkeep1.
  { intros p Hp. destruct (Hkeep p Hp) as [|Hp0]; [by left |].
    destruct (decide (p = tp)); [by left | right].
    destruct H1 as (_ & _ & _ & Hf). by rewrite Hf. }
  destruct (tar_add_total tp _ cfile w1 (Hkeep1 _ Hc)) as (w2 & -> & H2 & A2).
  assert (∀ p, is_Some (files w !! p) → p = tp ∨ is_Some (files w2 !! p)) as Hkeep2.
  { intros p Hp. destruct (Hkeep1 p Hp) as [|Hp0]; [by left |].
    destruct (decide (p = tp)); [by left | right].
    destruct H2 as (_ & _ & _ & Hf). by rewrite Hf. }
  destruct (add_layers_total od tp ls w2) as (w3 & -> & H3 & A3).
  { eapply Forall_impl; [exact Hls |]. intros f Hf. by apply Hkeep2. }
  exists w3. split; [done |]. split; [| auto].
  eauto using same_except_trans.
Qed.

Lemma tar_add_exact (tp name arc : string) (c : content)
    (ms : list (string * content)) (w : world) :
  name ≠ tp →
  files w !! name = Some c →
  files w !! tp = Some (Archive ms) →
  tar_add tp name arc w =
    (Ok (), set_files w (<[tp := Archive (ms ++ [(lstrip_slash arc, c)])]> (files w))).
Proof.
  intros Hne Hc Hms. unfold tar_add.
  destruct (decide (name = tp)); [done |]. by rewrite Hc, Hms.
Qed.

Lemma add_layers_exact (od tp : string) (ls : list string) (cs : list content)
    (ms : list (string * content)) (w : world) :
  Forall2 (λ f c, os_path_join od f ≠ tp ∧
                  files w !! os_path_join od f = Some c) ls cs →
  files w !! tp = Some (Archive ms) →
  add_layers od tp ls w =
    (Ok (), set_files w (<[tp := Archive (ms ++ zip (lstrip_slash <$> ls) cs)]> (files w))).
Proof.
  intros Hcs. revert w ms Hcs.
  induction ls as [|f ls IH] in cs |- *; intros w ms Hcs Hms.
  - apply Forall2_nil_inv_l in Hcs as ->. cbn [add_layers zip zip_with].
    rewrite app_nil_r, insert_id by done. by rewrite set_files_id.
  - apply Forall2_cons_inv_l in Hcs as (c & cs' & [Hf Hc] & Hcs & ->).
    cbn [add_layers]. unfold io_bind.
    rewrite (tar_add_exact tp _ f c ms w Hf Hc Hms).
    rewrite (IH cs' _ (ms ++ [(lstrip_slash f, c)])).
    + rewrite fmap_cons. cbn [zip zip_with]. unfold set_files. cbn [files locked network exchanges].
      by rewrite insert_insert_eq, <- app_assoc.
    + eapply Forall2_impl; [exact Hcs |]. intros g d [Hg1 Hg2]. simpl.
      by rewrite lookup_insert_ne.
    + simpl. by rewrite lookup_insert_eq.
Qed.

(** With the archive path writable and distinct from its members' paths,
    the archive holds the manifest, the config file and the layer files,
    in this order, under their names without leading slashes. *)
Lemma write_archive_exact (od tp cfile : string) (ls : list string)
    (mc cc : content) (cs : list content) (w : world) :
  tp ∉ locked w →
  os_path_join od "manifest.json" ≠ tp →
  os_path_join od cfile ≠ tp →
  files w !! os_path_join od "manifest.json" = Some mc →
  files w !! os_path_join od cfile = Some cc →
  Forall2 (λ f c, os_path_join od f ≠ tp ∧
                  files w !! os_path_join od f = Some c) ls cs →
  write_archive od tp cfile ls w =
    (Ok (), set_files w
              (<[tp := Archive (("manifest.json", mc) :: (lstrip_slash cfile, cc) ::
                                zip (lstrip_slash <$> ls) cs)]>
                 (files w))).
Proof.
  intros Hl Hm Hc Hmc Hcc Hcs.
  unfold write_archive, io_bind, tar_open, write_file.
  destruct (decide (tp ∈ locked w)); [done |].
  rewrite (tar_add_exact tp _ "manifest.json" mc []); [| done | |];
    cbn [set_files files locked network exchanges];
    [| by rewrite lookup_insert_ne | by rewrite lookup_insert_eq].
  change (lstrip_slash "manifest.json") with "manifest.json".
  rewrite (tar_add_exact tp _ cfile cc [("manifest.json", mc)]); [| done | |];
    cbn [set_files files locked network exchanges app];
    [| by rewrite !lookup_insert_ne | by rewrite lookup_insert_eq].
  rewrite (add_layers_exact od tp ls cs
             [("manifest.json", mc); (lstrip_slash cfile, cc)]);
    cbn [set_files files locked network exchanges app].
  - by rewrite !insert_insert_eq.
  - eapply Forall2_impl; [exact Hcs |]. intros g d [Hg1 Hg2].
    by rewrite !lookup_insert_ne.
  - by rewrite lookup_insert_eq.
Qed.

(** ** Archive assembler: the exceptions of the checks *)

Lemma unpack2_raises (l : list string) (e : exn) :
  unpack2 l = Raise e → ∃ msg, e = ValueError msg.
Proof.
  destruct l as [|a [|b [|c l]]]; simpl; intros [= <-]; by eexists.
Qed.

Lemma check_layers_raises (od : string) (ls : list string) (w w' : world) (e : exn) :
  check_layers od ls w = (Raise e, w') →
  ∃ f, f ∈ ls ∧ files w !! os_path_join od f = None ∧
       e = FileNotFoundError ("Layer file not found: " +:+ os_path_join od f).
Proof.
  induction ls as [|f ls IH]; [done |].
  cbn [check_layers]. unfold io_bind, path_exists, file_present, io_raise.
  destruct (files w !! os_path_join od f) eqn:E; cbn [negb].
  - intros H. destruct (IH H) as (g & Hg & Hnone & ->).
    exists g. split; [by right | done].
  - intros [= <- <-]. exists f. split; [by left | done].
Qed.

Lemma config_file_of_raises (m : json) (e : exn) :
  dict_has "config" m = true →
  config_file_of m = Raise e →
  e = KeyError "digest" ∨ (∃ msg, e = TypeError msg) ∨ (∃ msg, e = AttributeError msg).
Proof.
  unfold config_file_of. destruct m as [| | | | | |f]; try done.
  cbn [dict_has py_getitem].
  destruct (assoc "config" f) as [c|]; [| done]. intros _. cbn [bind].
  destruct c as [| | | | | |g]; cbn [py_getitem bind];
    try (intros [= <-]; right; left; by eexists).
  destruct (assoc "digest" g) as [d|]; cbn [bind]; [| intros [= <-]; by left].
  destruct d; cbn [py_replace_method bind]; try done;
    intros [= <-]; right; right; by eexists.
Qed.

Lemma mapM_layer_file_of_raises (items : list json) (e : exn) :
  mapM layer_file_of items = Raise e →
  e = KeyError "digest" ∨ (∃ msg, e = TypeError msg) ∨ (∃ msg, e = AttributeError msg).
Proof.
  induction items as [|item items IH]; [done |].
  cbn [mapM]. destruct (layer_file_of item) as [f|e0] eqn:Ef; cbn [bind].
  - destruct (mapM layer_file_of items); cbn [bind]; [done |].
    intros [= <-]. by apply IH.
  - intros [= <-]. unfold layer_file_of in Ef.
    destruct item as [| | | | | |g]; cbn [py_getitem bind] in Ef;
      try (injection Ef as <-; right; left; by eexists).
    destruct (assoc "digest" g) as [d|]; cbn [bind] in Ef;
      [| injection Ef as <-; by left].
    destruct d; cbn [py_replace_method bind] in Ef; try done;
      injection Ef as <-; right; right; by eexists.
Qed.

Lemma layer_files_of_raises (m : json) (e : exn) :
  dict_has "layers" m = true →
  layer_files_of m = Raise e →
  e = KeyError "digest" ∨ (∃ msg, e = TypeError msg) ∨ (∃ msg, e = AttributeError msg).
Proof.
  unfold layer_files_of. destruct m as [| | | | | |f]; try done.
  cbn [dict_has py_getitem].
  destruct (assoc "layers" f) as [l|]; [| done]. intros _. cbn [bind].
  destruct (py_iter l) as [items|e0] eqn:Ei; cbn [bind].
  - apply mapM_layer_file_of_raises.
  - intros [= <-]. destruct l; try done; injection Ei as <-; right; left; by eexists.
Qed.

Lemma repo_tag_of_raises (pl : string) (e : exn) :
  repo_tag_of pl = Raise e → ∃ msg, e = ValueError msg.
Proof.
  unfold repo_tag_of. destruct (py_in "@sha256:" pl); [| done].
  destruct (unpack2 (py_split "@sha256:" pl)) as [[a b]|e0] eqn:Eu; [done |].
  intros [= <-]. by eapply unpack2_raises.
Qed.

(** ** Archive assembler: the stages of [create_image_tar] *)

(** Either the checks fail, leaving the world as it was, or they pass and
    the run comes down to rewriting the manifest and writing the archive. *)
Lemma create_image_tar_cases (od tp pl : string) (w : world) :
  (∃ e, create_image_tar od tp pl w = (Raise e, w) ∧
        ∀ q, e = OSError q →
             q = os_path_join od "manifest.json" ∧
             os_path_join od "manifest.json" ∈ locked w) ∨
  (∃ m cfile lfiles tag,
     files w !! os_path_join od "manifest.json" = Some (Doc m) ∧
     config_file_of m = Ok cfile ∧ layer_files_of m = Ok lfiles ∧
     is_Some (files w !! os_path_join od cfile) ∧
     Forall (λ f, is_Some (files w !! os_path_join od f)) lfiles ∧
     repo_tag_of pl = Ok tag ∧
     (os_path_join od "manifest.json" ∉ locked w) ∧
     create_image_tar od tp pl w =
       write_archive od tp cfile lfiles
         (set_files w (<[os_path_join od "manifest.json" :=
                           Doc (docker_manifest cfile tag lfiles)]> (files w)))).
Proof.
  unfold create_image_tar, io_bind, path_exists, file_present, load_manifest, io_raise, io_lift.
  destruct (files w !! os_path_join od "manifest.json") as [[m| |]|] eqn:Em;
    cbn [negb]; rewrite ?Em; try (left; by eexists).
  destruct (py_truthy m); cbn [negb]; [| left; by eexists].
  destruct (is_dict m); cbn [negb]; [| left; by eexists].
  destruct (dict_has "config" m) eqn:Hhc; cbn [negb orb]; [| left; by eexists].
  destruct (dict_has "layers" m) eqn:Hhl; cbn [negb orb]; [| left; by eexists].
  destruct (config_file_of m) as [cfile|e] eqn:Ec.
  2: { left. eexists. split; [done |]. intros q ->.
       destruct (config_file_of_raises m _ Hhc Ec) as [|[[msg ?]|[msg ?]]]; done. }
  destruct (layer_files_of m) as [lfiles|e] eqn:El.
  2: { left. eexists. split; [done |]. intros q ->.
       destruct (layer_files_of_raises m _ Hhl El) as [|[[msg ?]|[msg ?]]]; done. }
  destruct (files w !! os_path_join od cfile) eqn:Ecf; cbn [negb];
    [| left; by eexists].
  destruct (check_layers od lfiles w) as [[[]|e] w1] eqn:Ecl.
  - pose proof (check_layers_frame _ _ _ _ _ Ecl) as ->.
    apply check_layers_ok_inv in Ecl.
    destruct (repo_tag_of pl) as [tag|e] eqn:Et.
    2: { left. eexists. split; [done |]. intros q ->.
         by destruct (repo_tag_of_raises pl _ Et) as [msg ?]. }
    unfold write_file.
    destruct (decide (os_path_join od "manifest.json" ∈ locked w)).
    { left. eexists. split; [done |]. by intros q [= <-]. }
    right. exists m, cfile, lfiles, tag. by repeat split.
  - pose proof (check_layers_frame _ _ _ _ _ Ecl) as ->. left.
    eexists. split; [done |]. intros q ->.
    by destruct (check_layers_raises _ _ _ _ _ Ecl) as (f & _ & _ & ?).
Qed.

(** ** Registry-format manifests *)

Lemma mapM_layer_files (ls : list json) (ds : list string) :
  mapM (λ l, match layer_digest l with
             | Some d => Ok d
             | None => Raise (KeyError "digest")
             end) ls = Ok ds →
  mapM layer_file_of ls = Ok (map layer_file_name ds).
Proof.
  revert ds. induction ls as [|l ls IH]; intros ds; cbn [mapM].
  - by intros [= <-].
  - unfold layer_digest at 1, layer_file_of at 1.
    destruct (py_getitem l "digest") as [[]|]; try done. cbn [bind].
    destruct (mapM _ ls) as [ds'|] eqn:E; [| done].
    intros [= <-]. by rewrite (IH ds').
Qed.

(** A registry-format manifest passes the format checks of the assembler,
    and its file names are those of the digest-to-filename mapping. *)
Lemma manifest_digests_checks (m : json) (cd : string) (ds : list string) :
  manifest_digests m = Some (cd, ds) →
  py_truthy m = true ∧ is_dict m = true ∧
  dict_has "config" m = true ∧ dict_has "layers" m = true ∧
  config_file_of m = Ok (config_file_name cd) ∧
  layer_files_of m = Ok (map layer_file_name ds).
Proof.
  destruct m as [| | | | | |f]; try done. cbn [manifest_digests].
  destruct (assoc "config" f) as [c|] eqn:Ec; [| done].
  destruct (assoc "layers" f) as [[| | | | |ls|]|] eqn:El; try done.
  destruct (py_getitem c "digest") as [[| | | |d| |]|] eqn:Ed; try done.
  destruct (mapM _ ls) as [ds'|] eqn:Em; [| done].
  intros [= <- <-].
  unfold config_file_of, layer_files_of. cbn [py_getitem dict_has is_dict].
  rewrite Ec, El. cbn [bind]. rewrite Ed. cbn [bind py_replace_method py_iter].
  rewrite (mapM_layer_files _ _ Em).
  repeat split. by destruct f.
Qed.

Lemma repo_tag_of_defined (pl : string) :
  occurrences "@sha256:" pl ≤ 1 → ∃ tag, repo_tag_of pl = Ok tag.
Proof.
  intros Hle. unfold repo_tag_of.
  destruct (py_in "@sha256:" pl) eqn:E; [| by eexists].
  pose proof (proj1 (py_in_occurrences _ _) E).
  destruct (py_in_split _ _ E) as (a & b & ->).
  rewrite py_split_one by (done || lia). by eexists.
Qed.

(** ** Paths *)

Lemma os_path_join_relative (od : string) :
  ∃ dir, ∀ name, String.prefix "/" name = false → os_path_join od name = dir +:+ name.
Proof.
  unfold os_path_join. destruct (last_char od) as [c|].
  - destruct (Ascii.eqb c "/").
    + exists od. by intros name ->.
    + exists (od +:+ "/"). intros name ->. by rewrite string_app_assoc.
  - exists "". by intros name ->.
Qed.

Lemma os_path_join_inj (od a b : string) :
  String.prefix "/" a = false → String.prefix "/" b = false →
  os_path_join od a = os_path_join od b → a = b.
Proof.
  intros Ha Hb. destruct (os_path_join_relative od) as [dir Hdir].
  rewrite !Hdir by done. apply String.app_inj.
Qed.


(** ** Archive assembler: runs on a registry-format manifest *)

Lemma create_image_tar_checked (od tp pl : string) (w : world) (m : json)
    (cd : string) (ds : list string) :
  files w !! os_path_join od "manifest.json" = Some (Doc m) →
  manifest_digests m = Some (cd, ds) →
  create_image_tar od tp pl w =
    (let cfile := config_file_name cd in
     let lfiles := map layer_file_name ds in
     let! present := path_exists (os_path_join od cfile) in
     if negb present then
       io_raise (FileNotFoundError ("Config file not found: " +:+ os_path_join od cfile))
     else
       let! _ := check_layers od lfiles in
       let! repo_tag := io_lift (repo_tag_of pl) in
       let! _ := write_file (os_path_join od "manifest.json")
                   (Doc (docker_manifest cfile repo_tag lfiles)) in
       write_archive od tp cfile lfiles) w.
Proof.
  intros Hm Hd.
  destruct (manifest_digests_checks _ _ _ Hd) as (Ht & Hi & Hc & Hl & Hcf & Hlf).
  unfold create_image_tar.
  unfold io_bind at 1, path_exists at 1, file_present at 1. rewrite Hm. cbn [negb].
  unfold io_bind at 1, load_manifest. rewrite Hm, Ht, Hi, Hc, Hl. cbn [negb orb].
  unfold io_bind at 1, io_lift at 1. rewrite Hcf.
  unfold io_bind at 1, io_lift at 1. rewrite Hlf.
  done.
Qed.

(** C5: when the manifest is in registry format and the config file is
    present, a layer whose file is absent (the earlier layers' files
    being present) makes the assembly fail with [FileNotFoundError]
    whose message names the path of that file; the world is returned
    unchanged, so no archive has been written. *)
Theorem missing_layer_reported (od tp pl : string) (w : world) (m : json)
    (cd d : string) (pre post : list string) :
  files w !! os_path_join od "manifest.json" = Some (Doc m) →
  manifest_digests m = Some (cd, pre ++ d :: post) →
  is_Some (files w !! os_path_join od (config_file_name cd)) →
  Forall (λ d', is_Some (files w !! os_path_join od (layer_file_name d'))) pre →
  files w !! os_path_join od (layer_file_name d) = None →
  create_image_tar od tp pl w =
    (Raise (FileNotFoundError
              ("Layer file not found: " +:+ os_path_join od (layer_file_name d))), w).
Proof.
  intros Hm Hd [cc Hc] Hpre Hmissing.
  rewrite (create_image_tar_checked _ _ _ _ _ _ _ Hm Hd). cbv zeta.
  unfold io_bind at 1, path_exists at 1, file_present at 1. rewrite Hc. cbn [negb].
  unfold io_bind at 1. rewrite map_app, map_cons.
  rewrite check_layers_missing; [done | | done].
  by apply Forall_map.
Qed.

Lemma missing_layer_reported_witness :
  create_image_tar "out" "img.tar" "h/p/i:t" (World dir_without_layer ∅ [] []) =
    (Raise (FileNotFoundError
              ("Layer file not found: " +:+ os_path_join "out" (layer_file_name "sha256:bbb"))),
     World dir_without_layer ∅ [] []).
Proof.
  apply (missing_layer_reported "out" "img.tar" "h/p/i:t" _ registry_doc
           "sha256:aaa" "sha256:bbb" [] []).
  - reflexivity.
  - reflexivity.
  - exists (Bytes "cfg"). reflexivity.
  - constructor.
  - reflexivity.
Defined.

(** A run whose checks all pass: the manifest is rewritten in loader
    format and the archive block runs on the result. *)
Lemma create_image_tar_passes (od tp pl tag : string) (w : world) (m : json)
    (cd : string) (ds : list string) :
  files w !! os_path_join od "manifest.json" = Some (Doc m) →
  manifest_digests m = Some (cd, ds) →
  is_Some (files w !! os_path_join od (config_file_name cd)) →
  Forall (λ d, is_Some (files w !! os_path_join od (layer_file_name d))) ds →
  repo_tag_of pl = Ok tag →
  os_path_join od "manifest.json" ∉ locked w →
  create_image_tar od tp pl w =
    write_archive od tp (config_file_name cd) (map layer_file_name ds)
      (set_files w (<[os_path_join od "manifest.json" :=
                        Doc (docker_manifest (config_file_name cd) tag
                               (map layer_file_name ds))]> (files w))).
Proof.
  intros Hm Hd [cc Hc] Hls Htag Hlock.
  rewrite (create_image_tar_checked _ _ _ _ _ _ _ Hm Hd). cbv zeta.
  unfold io_bind at 1, path_exists at 1, file_present at 1. rewrite Hc. cbn [negb].
  unfold io_bind at 1. rewrite check_layers_ok by by apply Forall_map.
  unfold io_bind at 1, io_lift at 1. rewrite Htag.
  unfold io_bind at 1, write_file at 1.
  by destruct (decide (os_path_join od "manifest.json" ∈ locked w)).
Qed.

(** C4: with [manifest.json] the one-layer registry manifest and the two
    blob files present (the archive path being writable and none of the
    three files, and the pull string holding the digest marker at most
    once), the assembly succeeds; the archive holds exactly
    [manifest.json], [sha256_aaa.json] and [sha256_bbb.tar.gz]; the
    archived manifest is a one-element list with [Config] and [Layers]
    naming the other two members. *)
Theorem assemble_one_layer (od tp pl : string) (w : world) (cc lc : content) :
  files w !! os_path_join od "manifest.json" = Some (Doc registry_doc) →
  files w !! os_path_join od "sha256_aaa.json" = Some cc →
  files w !! os_path_join od "sha256_bbb.tar.gz" = Some lc →
  os_path_join od "manifest.json" ∉ locked w →
  tp ∉ locked w →
  os_path_join od "manifest.json" ≠ tp →
  os_path_join od "sha256_aaa.json" ≠ tp →
  os_path_join od "sha256_bbb.tar.gz" ≠ tp →
  occurrences "@sha256:" pl ≤ 1 →
  ∃ tag,
    repo_tag_of pl = Ok tag ∧
    let loader :=
      Doc (JArr [JObj [("Config", JStr "sha256_aaa.json");
                       ("RepoTags", JArr [JStr tag]);
                       ("Layers", JArr [JStr "sha256_bbb.tar.gz"])]]) in
    create_image_tar od tp pl w =
      (Ok (),
       set_files w
         (<[tp := Archive [("manifest.json", loader);
                           ("sha256_aaa.json", cc);
                           ("sha256_bbb.tar.gz", lc)]]>
            (<[os_path_join od "manifest.json" := loader]> (files w)))).
Proof.
  intros Hm Hc Hl Hlockm Hlockt Hmt Hct Hlt Hpl.
  destruct (repo_tag_of_defined pl Hpl) as [tag Htag].
  exists tag. split; [done |]. cbv zeta.
  rewrite (create_image_tar_passes od tp pl tag w registry_doc
             "sha256:aaa" ["sha256:bbb"]); try done.
  - change (config_file_name "sha256:aaa") with "sha256_aaa.json".
    change (map layer_file_name ["sha256:bbb"]) with ["sha256_bbb.tar.gz"].
    assert (os_path_join od "manifest.json" ≠ os_path_join od "sha256_aaa.json") as Hcm
      by (intros E; by apply os_path_join_inj in E).
    assert (os_path_join od "manifest.json" ≠ os_path_join od "sha256_bbb.tar.gz") as Hlm
      by (intros E; by apply os_path_join_inj in E).
    erewrite (write_archive_exact od tp "sha256_aaa.json" ["sha256_bbb.tar.gz"]
                _ cc [lc]); simpl; try done.
    + rewrite lookup_insert_eq. reflexivity.
    + by rewrite lookup_insert_ne.
    + constructor; [| constructor]. split; [done |]. by rewrite lookup_insert_ne.
  - constructor; [by eexists | constructor].
Qed.

Lemma assemble_one_layer_witness :
  ∃ tag,
    repo_tag_of "h/p/i:t" = Ok tag ∧
    let loader :=
      Doc (JArr [JObj [("Config", JStr "sha256_aaa.json");
                       ("RepoTags", JArr [JStr tag]);
                       ("Layers", JArr [JStr "sha256_bbb.tar.gz"])]]) in
    create_image_tar "out" "i_t.tar" "h/p/i:t" (World pulled_dir ∅ [] []) =
      (Ok (),
       set_files (World pulled_dir ∅ [] [])
         (<["i_t.tar" := Archive [("manifest.json", loader);
                                  ("sha256_aaa.json", Bytes "cfg");
                                  ("sha256_bbb.tar.gz", Bytes "layer")]]>
            (<[os_path_join "out" "manifest.json" := loader]> pulled_dir))).
Proof.
  apply (assemble_one_layer "out" "i_t.tar" "h/p/i:t" (World pulled_dir ∅ [] [])
           (Bytes "cfg") (Bytes "layer")).
  - reflexivity.
  - reflexivity.
  - reflexivity.
  - vm_compute. set_solver.
  - vm_compute. set_solver.
  - vm_compute. discriminate.
  - vm_compute. discriminate.
  - vm_compute. discriminate.
  - vm_compute. lia.
Defined.

(** ** Archive assembler: failures and re-runs *)

(** C9 (the claim as stated fails): with the archive path not writable,
    the assembly fails when it opens the archive, after [manifest.json]
    has been overwritten with the loader manifest. *)
Lemma archive_failure_after_rewrite :
  files (World pulled_dir {["img.tar"]} [] []) !! "out/manifest.json" =
    Some (Doc registry_doc) ∧
  (create_image_tar "out" "img.tar" "h/p/i:t" (World pulled_dir {["img.tar"]} [] [])).1 =
    Raise (OSError "img.tar") ∧
  files (create_image_tar "out" "img.tar" "h/p/i:t"
           (World pulled_dir {["img.tar"]} [] [])).2 !! "out/manifest.json" =
    Some (Doc (docker_manifest "sha256_aaa.json" "h/p/i:t" ["sha256_bbb.tar.gz"])).
Proof. repeat split; vm_compute; reflexivity. Qed.

(** C9 (amended): when the assembly fails at one of its checks, or
    because [manifest.json] cannot be opened for writing, the world is
    left exactly as it was, and no archive is written.  When it fails
    because the archive cannot be opened for writing, the checks have
    passed and [manifest.json] has already been overwritten: it holds
    the loader manifest built from the names read in the old manifest
    and from the pull string, which differs from what it held; nothing
    else has changed, and the archive path holds what it held. *)
Theorem create_image_tar_failure (od tp pl : string) (w w' : world) (e : exn) :
  create_image_tar od tp pl w = (Raise e, w') →
  (e ≠ OSError tp ∨ os_path_join od "manifest.json" ∈ locked w → w' = w) ∧
  (e = OSError tp → os_path_join od "manifest.json" ∉ locked w →
   tp ∈ locked w ∧
   ∃ m cfile lfiles tag,
     files w !! os_path_join od "manifest.json" = Some (Doc m) ∧
     config_file_of m = Ok cfile ∧ layer_files_of m = Ok lfiles ∧
     repo_tag_of pl = Ok tag ∧
     w' = set_files w (<[os_path_join od "manifest.json" :=
                           Doc (docker_manifest cfile tag lfiles)]> (files w)) ∧
     files w' !! os_path_join od "manifest.json" ≠
       files w !! os_path_join od "manifest.json" ∧
     files w' !! tp = files w !! tp).
Proof.
  intros Hrun.
  destruct (create_image_tar_cases od tp pl w)
    as [(e0 & H0 & Hos)|(m & cfile & lfiles & tag & Hm & Hcf & Hlf & Hc & Hls & Htag
                         & Hlm & H1)].
  - rewrite H0 in Hrun. injection Hrun as <- <-. split; [done |].
    intros -> Hnl. by destruct (Hos tp eq_refl) as [_ ?].
  - rewrite H1 in Hrun.
    set (w1 := set_files w _) in *.
    destruct (decide (tp ∈ locked w)) as [Hl|Hl].
    + rewrite write_archive_locked in Hrun by done.
      injection Hrun as <- <-. split; [by intros [|] |].
      intros _ _. split; [done |].
      exists m, cfile, lfiles, tag.
      split; [done |]. split; [done |]. split; [done |]. split; [done |].
      split; [done |]. subst w1. cbn [files set_files].
      split.
      * rewrite lookup_insert_eq, Hm. intros [= E]. by rewrite <- E in Hcf.
      * rewrite lookup_insert_ne; [done |]. by intros <-.
    + destruct (write_archive_total od tp cfile lfiles w1) as (w2 & H2 & _); try done.
      * simpl. by rewrite lookup_insert_eq.
      * simpl. by apply lookup_insert_is_Some'; right.
      * eapply Forall_impl; [exact Hls |]. intros f Hf. simpl.
        by apply lookup_insert_is_Some'; right.
      * rewrite H2 in Hrun. done.
Qed.

Lemma create_image_tar_failure_witness :
  (OSError "img.tar" ≠ OSError "img.tar" ∨
   os_path_join "out" "manifest.json" ∈ locked (World pulled_dir {["img.tar"]} [] []) →
   (create_image_tar "out" "img.tar" "h/p/i:t" (World pulled_dir {["img.tar"]} [] [])).2 =
     World pulled_dir {["img.tar"]} [] []) ∧
  (OSError "img.tar" = OSError "img.tar" →
   os_path_join "out" "manifest.json" ∉ locked (World pulled_dir {["img.tar"]} [] []) →
   "img.tar" ∈ locked (World pulled_dir {["img.tar"]} [] []) ∧
   ∃ m cfile lfiles tag,
     files (World pulled_dir {["img.tar"]} [] []) !! os_path_join "out" "manifest.json" =
       Some (Doc m) ∧
     config_file_of m = Ok cfile ∧ layer_files_of m = Ok lfiles ∧
     repo_tag_of "h/p/i:t" = Ok tag ∧
     (create_image_tar "out" "img.tar" "h/p/i:t" (World pulled_dir {["img.tar"]} [] [])).2 =
       set_files (World pulled_dir {["img.tar"]} [] [])
         (<[os_path_join "out" "manifest.json" :=
              Doc (docker_manifest cfile tag lfiles)]>
            (files (World pulled_dir {["img.tar"]} [] []))) ∧
     files (create_image_tar "out" "img.tar" "h/p/i:t"
              (World pulled_dir {["img.tar"]} [] [])).2
       !! os_path_join "out" "manifest.json" ≠
       files (World pulled_dir {["img.tar"]} [] []) !! os_path_join "out" "manifest.json" ∧
     files (create_image_tar "out" "img.tar" "h/p/i:t"
              (World pulled_dir {["img.tar"]} [] [])).2 !! "img.tar" =
       files (World pulled_dir {["img.tar"]} [] []) !! "img.tar").
Proof.
  apply (create_image_tar_failure "out" "img.tar" "h/p/i:t"
           (World pulled_dir {["img.tar"]} [] [])).
  vm_compute. reflexivity.
Defined.

(** C8: after a run of the assembly that succeeded, a second run on the
    world it left fails with [ValueError] (the format error), and leaves
    that world exactly as it found it: nothing is rewritten and no
    archive is written. *)
Theorem second_run_fails_cleanly (od tp pl : string) (w w1 : world) :
  create_image_tar od tp pl w = (Ok (), w1) →
  ∃ msg, create_image_tar od tp pl w1 = (Raise (ValueError msg), w1).
Proof.
  intros Hrun.
  destruct (create_image_tar_cases od tp pl w)
    as [(e0 & H0 & Hos)|(m & cfile & lfiles & tag & Hm & _ & _ & Hc & Hls & _ & _ & H1)].
  { rewrite H0 in Hrun. done. }
  rewrite H1 in Hrun. set (w0 := set_files w _) in *.
  destruct (decide (tp ∈ locked w)) as [Hl|Hl].
  { rewrite write_archive_locked in Hrun by done. done. }
  destruct (write_archive_total od tp cfile lfiles w0)
    as (w2 & H2 & (_ & _ & _ & Hsame) & [ms Hms]); try done.
  { simpl. by rewrite lookup_insert_eq. }
  { simpl. by apply lookup_insert_is_Some'; right. }
  { eapply Forall_impl; [exact Hls |]. intros f Hf. simpl.
    by apply lookup_insert_is_Some'; right. }
  rewrite H2 in Hrun. injection Hrun as <-.
  unfold create_image_tar, io_bind, path_exists, file_present, load_manifest, io_raise.
  destruct (decide (os_path_join od "manifest.json" = tp)) as [E|E].
  - rewrite E, Hms. cbn [negb]. rewrite Hms. by eexists.
  - rewrite (Hsame _ E). subst w0. simpl. rewrite lookup_insert_eq.
    cbn [negb]. rewrite (Hsame _ E). simpl. rewrite lookup_insert_eq.
    by eexists.
Qed.

Lemma second_run_fails_cleanly_witness :
  ∃ msg,
    create_image_tar "out" "i_t.tar" "h/p/i:t"
      (create_image_tar "out" "i_t.tar" "h/p/i:t" (World pulled_dir ∅ [] [])).2 =
    (Raise (ValueError msg),
     (create_image_tar "out" "i_t.tar" "h/p/i:t" (World pulled_dir ∅ [] [])).2).
Proof.
  apply (second_run_fails_cleanly "out" "i_t.tar" "h/p/i:t" (World pulled_dir ∅ [] [])).
  vm_compute. reflexivity.
Defined.

(** ** Registry client: a pull in which every fetch succeeds *)

Lemma download_blob_ok (h p i d od : string) (is_config : bool) (body : content)
    (rest : list answer) (w : world) :
  network w = Answer 200 body :: rest →
  os_path_join od (py_replace ":" "_" d +:+ (if is_config then ".json" else ".tar.gz"))
    ∉ locked w →
  download_blob h p i (JStr d) od is_config w =
    (Ok (os_path_join od (py_replace ":" "_" d +:+ (if is_config then ".json" else ".tar.gz"))),
     World (<[os_path_join od (py_replace ":" "_" d +:+
                                (if is_config then ".json" else ".tar.gz")) := body]> (files w))
           (locked w) rest
           (exchanges w ++ [(BlobRequest h p i (JStr d), Answer 200 body)])).
Proof.
  intros Hnet Hlock.
  unfold download_blob, io_bind, http_get_stream, after_get, io_lift, write_file, io_ret.
  rewrite Hnet. cbn [hd tail handed Z.eqb Pos.eqb negb py_replace_method].
  cbn [locked]. by destruct (decide (_ ∈ locked w)).
Qed.

Lemma download_layers_ok (h p i od : string) (items : list json) (ds : list string)
    (bodies : list content) (rest : list answer) (w : world) :
  Forall2 (λ item d, py_getitem item "digest" = Ok (JStr d)) items ds →
  length bodies = length ds →
  network w = map (Answer 200) bodies ++ rest →
  Forall (λ d, os_path_join od (layer_file_name d) ∉ locked w) ds →
  download_layers h p i od items w =
    (Ok true,
     World (write_blobs od (files w) (zip ds bodies)) (locked w) rest
           (exchanges w ++
            zip_with (λ d b, (BlobRequest h p i (JStr d), Answer 200 b)) ds bodies)).
Proof.
  intros Hitems. revert bodies w.
  induction Hitems as [|item d items ds Hd _ IH]; intros bodies w Hlen Hnet Hlock.
  - destruct bodies; [| done]. simpl in Hnet. subst rest.
    cbn. rewrite app_nil_r. by destruct w.
  - destruct bodies as [|b bodies]; [done |]. simpl in Hlen, Hnet.
    apply Forall_cons in Hlock as [Hl Hlock].
    cbn [download_layers]. unfold io_bind at 1, io_lift at 1. rewrite Hd.
    unfold io_bind at 1, io_try at 1.
    rewrite (download_blob_ok h p i d od false b _ w Hnet Hl).
    rewrite (IH bodies); [| lia | done | done].
    cbn [files locked exchanges zip zip_with write_blobs].
    unfold layer_file_name. by rewrite <- app_assoc.
Qed.

Lemma manifest_digests_fields (m : json) (cd : string) (ds : list string) :
  manifest_digests m = Some (cd, ds) →
  ∃ items,
    (let* config := py_getitem m "config" in py_getitem config "digest") = Ok (JStr cd) ∧
    py_get m "layers" (JArr []) = Ok (JArr items) ∧
    Forall2 (λ item d, py_getitem item "digest" = Ok (JStr d)) items ds.
Proof.
  destruct m as [| | | | | |f]; try done. cbn [manifest_digests].
  destruct (assoc "config" f) as [c|] eqn:Ec; [| done].
  destruct (assoc "layers" f) as [[| | | | |ls|]|] eqn:El; try done.
  destruct (py_getitem c "digest") as [[| | | |d| |]|] eqn:Ed; try done.
  destruct (mapM _ ls) as [ds'|] eqn:Em; [| done].
  intros [= <- <-]. exists ls. cbn [py_getitem py_get]. rewrite Ec, El.
  split; [done |]. split; [done |].
  clear -Em. revert ds' Em. induction ls as [|l ls IH]; intros ds' Em.
  - injection Em as <-. constructor.
  - cbn [mapM] in Em. unfold layer_digest at 1 in Em.
    destruct (py_getitem l "digest") as [[| | | |d| |]|] eqn:Ed; try done.
    cbn [bind] in Em. destruct (mapM _ ls) as [ds''|] eqn:Em'; [| done].
    injection Em as <-. constructor; [done | by apply IH].
Qed.

(** The whole pull when the registry serves a registry-format manifest and
    answers every blob request with status 200: the config blob is
    requested only when its file is absent, every layer is requested and
    stored, and the manifest is written last. *)
Lemma pull_image_ok (h p i r od : string) (w : world) (m : json) (cd : string)
    (ds : list string) (cbody : content) (bodies : list content) (rest : list answer) :
  dir_ready w od = true →
  manifest_digests m = Some (cd, ds) →
  length bodies = length ds →
  network w =
    Answer 200 (Doc m) ::
    (if file_present w (os_path_join od (config_file_name cd)) then []
     else [Answer 200 cbody]) ++
    map (Answer 200) bodies ++ rest →
  os_path_join od (config_file_name cd) ∉ locked w →
  Forall (λ d, os_path_join od (layer_file_name d) ∉ locked w) ds →
  os_path_join od "manifest.json" ∉ locked w →
  pull_image h p i r od w =
    (Ok Pulled,
     World (<[os_path_join od "manifest.json" := Doc m]>
              (write_blobs od
                 (if file_present w (os_path_join od (config_file_name cd)) then files w
                  else <[os_path_join od (config_file_name cd) := cbody]> (files w))
                 (zip ds bodies)))
           (locked w) rest
           (exchanges w ++
            (ManifestRequest h p i r, Answer 200 (Doc m)) ::
            (if file_present w (os_path_join od (config_file_name cd)) then []
             else [(BlobRequest h p i (JStr cd), Answer 200 cbody)]) ++
            zip_with (λ d b, (BlobRequest h p i (JStr d), Answer 200 b)) ds bodies)).
Proof.
  intros Hdir Hd Hlen Hnet Hlc Hll Hlm.
  destruct (manifest_digests_fields _ _ _ Hd) as (items & Hcd & Hlayers & Hitems).
  assert (layer_items m = Ok items) as Hli by (unfold layer_items; by rewrite Hlayers).
  unfold pull_image.
  unfold io_bind at 1, makedirs. rewrite Hdir.
  unfold io_bind at 1, io_try at 1, get_manifest, io_bind at 1, http_get, after_get.
  rewrite Hnet. cbn [hd tail handed Z.eqb Pos.eqb negb io_ret].
  unfold io_bind at 1, io_lift at 1. rewrite Hcd.
  unfold io_bind at 1, io_lift at 1. cbn [py_replace_method].
  unfold io_bind at 1, path_exists at 1.
  change (file_present (World (files w) (locked w) _ _) ?q) with (file_present w q).
  fold (config_file_name cd).
  unfold io_bind at 1.
  destruct (file_present w (os_path_join od (config_file_name cd))) eqn:Ep; cbn [negb].
  - unfold io_ret at 1.
    unfold io_bind at 1, io_lift at 1. rewrite Hli.
    unfold io_bind at 1.
    rewrite (download_layers_ok h p i od items ds bodies rest); try done.
    cbn [negb]. unfold io_bind, write_file, io_ret. cbn [locked files exchanges network].
    destruct (decide (_ ∈ locked w)); [done |].
    unfold set_files. cbn. by rewrite <- app_assoc.
  - unfold io_try at 1.
    rewrite (download_blob_ok h p i cd od true cbody (map (Answer 200) bodies ++ rest));
      [| done | done].
    unfold io_bind at 1, io_lift at 1. rewrite Hli.
    unfold io_bind at 1.
    rewrite (download_layers_ok h p i od items ds bodies rest); try done.
    cbn [negb]. unfold io_bind, write_file, io_ret. cbn [locked files exchanges network].
    destruct (decide (_ ∈ locked w)); [done |].
    unfold set_files. cbn. unfold config_file_name. by rewrite <- !app_assoc.
Qed.

(** ** File names of blobs *)




Lemma write_blobs_other (od : string) (fs : gmap string content) (ds : list string)
    (bodies : list content) (q : string) :
  Forall (λ d, os_path_join od (layer_file_name d) ≠ q) ds →
  write_blobs od fs (zip ds bodies) !! q = fs !! q.
Proof.
  intros Hds. revert fs bodies.
  induction Hds as [|d ds Hd _ IH]; intros fs [|b bodies]; try done.
  cbn [zip zip_with write_blobs]. rewrite IH. by rewrite lookup_insert_ne.
Qed.





(** ** Registry client: what any pull does *)









(** ** Main: the archive of a run *)












(** ** Main: a run against a registry that serves everything *)

Lemma write_blobs_keeps (od : string) (fs : gmap string content)
    (blobs : list (string * content)) (q : string) :
  is_Some (fs !! q) → is_Some (write_blobs od fs blobs !! q).
Proof.
  revert fs. induction blobs as [|[d b] blobs IH]; intros fs Hq; [done |].
  cbn [write_blobs]. apply IH. by apply lookup_insert_is_Some'; right.
Qed.

Lemma write_blobs_present (od : string) (fs : gmap string content) (ds : list string)
    (bodies : list content) :
  length bodies = length ds →
  Forall (λ d, is_Some (write_blobs od fs (zip ds bodies)
                          !! os_path_join od (layer_file_name d))) ds.
Proof.
  revert fs bodies. induction ds as [|d ds IH]; intros fs [|b bodies] Hlen;
    try done.
  cbn [zip zip_with write_blobs]. constructor.
  - apply write_blobs_keeps. rewrite lookup_insert_eq. by eexists.
  - apply IH. simpl in Hlen. lia.
Qed.

(** With a parsable pull string holding the digest marker at most once,
    an output directory that exists or can be created, a registry that
    serves a registry-format manifest and every blob, and no path locked,
    [main] ends with the archive created. *)
Lemma main_creates_archive (pl od h p i r : string) (w : world) (m : json)
    (cd : string) (ds : list string) (cbody : content) (bodies : list content)
    (rest : list answer) :
  parse_docker_pull_link pl = Ok (h, p, i, r) →
  occurrences "@sha256:" pl ≤ 1 →
  dir_ready w od = true →
  manifest_digests m = Some (cd, ds) →
  length bodies = length ds →
  network w =
    Answer 200 (Doc m) ::
    (if file_present w (os_path_join od (config_file_name cd)) then []
     else [Answer 200 cbody]) ++
    map (Answer 200) bodies ++ rest →
  locked w = ∅ →
  ∃ w', main pl od w = (Ok Created, w').
Proof.
  intros Hparse Hpl Hdir Hd Hlen Hnet Hlock.
  destruct (repo_tag_of_defined pl Hpl) as [tag Htag].
  unfold main. rewrite Hparse.
  unfold io_bind at 1, io_try at 1.
  assert (∀ q, q ∉ locked w) as Hnl by (intros q; rewrite Hlock; set_solver).
  rewrite (pull_image_ok h p i r od w m cd ds cbody bodies rest Hdir Hd Hlen Hnet
             (Hnl _) ltac:(apply Forall_forall; intros; apply Hnl) (Hnl _)).
  set (w1 := World _ _ _ _).
  assert (locked w1 = ∅) as Hlock1 by done.
  assert (files w1 !! os_path_join od "manifest.json" = Some (Doc m)) as Hm1.
  { subst w1. simpl. by rewrite lookup_insert_eq. }
  assert (is_Some (files w1 !! os_path_join od (config_file_name cd))) as Hc1.
  { subst w1. simpl. apply lookup_insert_is_Some'; right. apply write_blobs_keeps.
    unfold file_present.
    destruct (files w !! os_path_join od (config_file_name cd)) eqn:E; [by eexists |].
    rewrite lookup_insert_eq. by eexists. }
  assert (Forall (λ d, is_Some (files w1 !! os_path_join od (layer_file_name d))) ds) as Hl1.
  { subst w1. simpl. apply Forall_forall. intros d Hin.
    apply lookup_insert_is_Some'; right.
    by apply (proj1 (Forall_forall _ _) (write_blobs_present od _ ds bodies Hlen) d Hin). }
  clearbody w1.
  unfold io_bind at 1, io_try at 1.
  assert (∀ q, q ∉ locked w1) as Hnl1 by (intros q; rewrite Hlock1; set_solver).
  rewrite (create_image_tar_passes od _ pl tag w1 m cd ds Hm1 Hd Hc1 Hl1 Htag (Hnl1 _)).
  destruct (write_archive_total od (tar_path_of i r) (config_file_name cd)
              (map layer_file_name ds)
              (set_files w1 (<[os_path_join od "manifest.json" :=
                 Doc (docker_manifest (config_file_name cd) tag
                        (map layer_file_name ds))]> (files w1))))
    as (w2 & -> & _).
  - simpl. apply Hnl1.
  - simpl. rewrite lookup_insert_eq. by eexists.
  - simpl. by apply lookup_insert_is_Some'; right.
  - apply Forall_map. eapply Forall_impl; [exact Hl1 |]. intros d Hp. simpl.
    by apply lookup_insert_is_Some'; right.
  - by exists w2.
Qed.

(** ** Examples *)

Example pull_then_assemble :
  (main "h/p/i:t" "out" registry_world).1 = Ok Created ∧
  files (main "h/p/i:t" "out" registry_world).2 !! "i_t.tar" =
    Some (Archive
            [("manifest.json",
              Doc (JArr [JObj [("Config", JStr "sha256_aaa.json");
                               ("RepoTags", JArr [JStr "h/p/i:t"]);
                               ("Layers", JArr [JStr "sha256_bbb.tar.gz"])]]));
             ("sha256_aaa.json", Bytes "cfg");
             ("sha256_bbb.tar.gz", Bytes "layer")]).
Proof. split; vm_compute; reflexivity. Qed.

Example layer_download_fails :
  (pull_image "h" "p" "i" "t" "out" failing_registry_world).1 = Ok LayerDownloadFailed ∧
  files (pull_image "h" "p" "i" "t" "out" failing_registry_world).2
    !! "out/manifest.json" = None ∧
  files (pull_image "h" "p" "i" "t" "out" failing_registry_world).2
    !! "out/sha256_aaa.json" = Some (Bytes "cfg").
Proof. repeat split; vm_compute; reflexivity. Qed.

Example parse_rejects_scheme_and_short_links :
  (∃ msg, parse_docker_pull_link "http://h/p/i:t" = Raise (ValueError msg)) ∧
  (∃ msg, parse_docker_pull_link "onlytwo/segments" = Raise (ValueError msg)).
Proof. split; by eexists. Qed.

(** * Further properties of the code *)

(** ** Reference parser: when it returns, and what it returns *)

Lemma unpack2_returns (l : list string) :
  (∃ pair, unpack2 l = Ok pair) ↔ length l = 2.
Proof.
  destruct l as [|a [|b [|c l]]]; simpl; split; try done;
    try (by intros [pair [=]]); try lia.
  intros _. by eexists.
Qed.

(** A separator whose first character does not occur again in it cannot
    start inside one of its own occurrences. *)
Lemma occurrences_skip (c : ascii) (sep' x r : string) :
  count_char c x = 0 →
  occurrences (String c sep') (x +:+ r) = occurrences (String c sep') r.
Proof.
  induction x as [|d x IH]; [done |].
  rewrite string_app_cons. cbn [count_char].
  destruct (Ascii.eqb_spec d c) as [->|Hne]; [done |]. intros Hx.
  rewrite occurrences_unfold. rewrite IH by done.
  simpl. destruct (ascii_dec c d); [congruence | done].
Qed.

Lemma split_length_go (c : ascii) (sep' : string) (n : nat) (s : string) :
  count_char c sep' = 0 →
  String.length s < n →
  length (split_go (String c sep') 0 s).2 = occurrences (String c sep') s.
Proof.
  intros Hc. revert s. induction n as [|n IH]; intros s Hn; [lia |].
  destruct (String.prefix (String c sep') s) eqn:E.
  - apply prefix_true in E as [r ->].
    rewrite split_go_match by done.
    rewrite string_length_app in Hn. cbn [String.length] in Hn.
    specialize (IH r ltac:(lia)).
    rewrite occurrences_unfold, prefix_app, string_app_cons.
    rewrite occurrences_skip by done.
    destruct (split_go (String c sep') 0 r). simpl in *. lia.
  - destruct s as [|d s]; [by rewrite occurrences_unfold, E |].
    rewrite split_go_nomatch by done.
    specialize (IH s ltac:(simpl in Hn; lia)).
    rewrite occurrences_unfold, E.
    destruct (split_go (String c sep') 0 s). simpl in *. lia.
Qed.

(** For such a separator the split has one piece more than the separator
    has occurrences. *)
Lemma split_length (c : ascii) (sep' s : string) :
  count_char c sep' = 0 →
  length (py_split (String c sep') s) = S (occurrences (String c sep') s).
Proof.
  intros Hc. unfold py_split.
  pose proof (split_length_go c sep' (S (String.length s)) s Hc ltac:(lia)) as H.
  destruct (split_go (String c sep') 0 s). simpl in *. lia.
Qed.

(** X1: [parse_docker_pull_link] returns a reference exactly for the pull
    strings without [://], with at least two slashes, and whose tail
    either holds the digest marker exactly once, or holds no digest
    marker and at most one colon; every other string makes it raise. *)
Theorem parse_returns_iff (s : string) :
  (∃ parsed, parse_docker_pull_link s = Ok parsed) ↔
  py_in "://" s = false ∧
  2 ≤ count_char "/" s ∧
  (occurrences "@sha256:" (image_and_ref_of s) = 1 ∨
   (occurrences "@sha256:" (image_and_ref_of s) = 0 ∧
    count_char ":" (image_and_ref_of s) ≤ 1)).
Proof.
  pose proof (split_char_length "/" s) as Hlen.
  destruct (py_in "://" s) eqn:Hscheme.
  { unfold parse_docker_pull_link. rewrite Hscheme.
    split; [by intros [parsed [=]] | by intros [[=] _]]. }
  destruct (decide (2 ≤ count_char "/" s)) as [Hslash|Hslash].
  2: { unfold parse_docker_pull_link. rewrite Hscheme.
       destruct (Nat.ltb_spec (length (py_split "/" s)) 3) as [_|]; [| lia].
       split; [by intros [parsed [=]] | intros (_ & ? & _); lia]. }
  destruct (parse_segments s Hscheme ltac:(lia)) as (host & project & _ & _ & _ & ->).
  cbv zeta.
  pose proof (split_length "@" "sha256:" (image_and_ref_of s) eq_refl) as Hmark.
  pose proof (split_char_length ":" (image_and_ref_of s)) as Hcolon.
  pose proof (py_in_occurrences "@sha256:" (image_and_ref_of s)) as Hin.
  pose proof (py_in_char ":" (image_and_ref_of s)) as Hinc.
  destruct (py_in "@sha256:" (image_and_ref_of s)).
  - pose proof (proj1 Hin eq_refl).
    pose proof (unpack2_returns (py_split "@sha256:" (image_and_ref_of s))) as Hu.
    destruct (unpack2 (py_split "@sha256:" (image_and_ref_of s))) as [[a b]|e]; cbn [bind].
    + assert (length (py_split "@sha256:" (image_and_ref_of s)) = 2)
        by (apply Hu; by eexists).
      split; [intros _ | intros _; by eexists].
      split; [done |]. split; [done |]. left. lia.
    + split; [by intros [parsed [=]] |].
      intros (_ & _ & [Hone|[Hzero _]]); [| lia].
      destruct (proj2 Hu ltac:(lia)) as [pair [=]].
  - assert (occurrences "@sha256:" (image_and_ref_of s) = 0) as Hzero.
    { destruct (occurrences "@sha256:" (image_and_ref_of s)); [done |].
      by specialize (proj2 Hin ltac:(lia)). }
    destruct (py_in ":" (image_and_ref_of s)).
    + pose proof (proj1 Hinc eq_refl).
      pose proof (unpack2_returns (py_split ":" (image_and_ref_of s))) as Hu.
      destruct (unpack2 (py_split ":" (image_and_ref_of s))) as [[a b]|e]; cbn [bind].
      * assert (length (py_split ":" (image_and_ref_of s)) = 2)
          by (apply Hu; by eexists).
        split; [intros _ | intros _; by eexists].
        split; [done |]. split; [done |]. right. split; [done | lia].
      * split; [by intros [parsed [=]] |].
        intros (_ & _ & [Hone|[_ Hle]]); [lia |].
        destruct (proj2 Hu ltac:(lia)) as [pair [=]].
    + split; [intros _ | intros _; by eexists].
      split; [done |]. split; [done |]. right. split; [done |].
      destruct (count_char ":" (image_and_ref_of s)); [lia |].
      by specialize (proj2 Hinc ltac:(lia)).
Qed.

(** Splitting at a character: the text before its first occurrence is the
    first piece. *)
Lemma split_char_app (c : ascii) (a b : string) :
  count_char c a = 0 →
  py_split (String c "") (a +:+ String c b) = a :: py_split (String c "") b.
Proof.
  intros Ha. unfold py_split.
  assert (split_go (String c "") 0 (a +:+ String c b) =
          (a, (split_go (String c "") 0 b).1 :: (split_go (String c "") 0 b).2)) as ->.
  { induction a as [|d a IH].
    - rewrite string_app_nil_l. cbn [split_go]. rewrite prefix_char, Ascii.eqb_refl.
      cbn [String.length]. change (1 - 1) with 0.
      by destruct (split_go (String c "") 0 b).
    - rewrite string_app_cons. cbn [count_char] in Ha.
      destruct (Ascii.eqb d c) eqn:E; [done |].
      cbn [split_go]. rewrite prefix_char, E. by rewrite IH. }
  by destruct (split_go (String c "") 0 b).
Qed.

Lemma split_char_none (c : ascii) (s : string) :
  count_char c s = 0 → py_split (String c "") s = [s].
Proof.
  intros Hs. unfold py_split.
  by rewrite split_go_none by by rewrite occurrences_char.
Qed.

Lemma py_split_nonempty (sep s : string) : py_split sep s ≠ [].
Proof. unfold py_split. by destruct (split_go sep 0 s). Qed.

(** A substring holds no character more often than the string around it. *)
Lemma py_in_count (c : ascii) (sub s : string) :
  py_in sub s = true → count_char c sub ≤ count_char c s.
Proof.
  intros H. destruct (py_in_split _ _ H) as (a & b & ->).
  rewrite !count_char_app. lia.
Qed.

(** The segments of [host/project/rest]. *)
Lemma parse_of_segments (host project rest : string) :
  count_char "/" host = 0 →
  count_char "/" project = 0 →
  py_in "://" (host +:+ "/" +:+ project +:+ "/" +:+ rest) = false →
  parse_docker_pull_link (host +:+ "/" +:+ project +:+ "/" +:+ rest) =
    if py_in "@sha256:" rest then
      let* (image_name, image_ref) := unpack2 (py_split "@sha256:" rest) in
      Ok (host, project, image_name, "sha256:" +:+ image_ref)
    else if py_in ":" rest then
      let* (image_name, image_ref) := unpack2 (py_split ":" rest) in
      Ok (host, project, image_name, image_ref)
    else Ok (host, project, rest, "latest").
Proof.
  intros Hh Hp Hscheme.
  unfold parse_docker_pull_link. rewrite Hscheme.
  change (host +:+ "/" +:+ project +:+ "/" +:+ rest)
    with (host +:+ String "/" (project +:+ String "/" rest)).
  rewrite !split_char_app by done.
  pose proof (py_split_nonempty "/" rest) as Hne.
  pose proof (py_join_split "/" slash_nonempty rest) as Hjoin.
  destruct (py_split "/" rest) as [|x xs]; [done |].
  cbn [length nth drop]. destruct (Nat.ltb_spec (S (S (S (length xs)))) 3); [lia |].
  by rewrite Hjoin.
Qed.

(** X2: writing a reference as [host/project/image:tag] and parsing it
    gives the four parts back, when host and project hold no slash,
    image and tag no colon, and the string holds neither [://] nor the
    digest marker in [image:tag].  The image may hold slashes. *)
Theorem parse_of_tagged (host project image tag : string) :
  count_char "/" host = 0 →
  count_char "/" project = 0 →
  count_char ":" image = 0 →
  count_char ":" tag = 0 →
  py_in "@sha256:" (image +:+ ":" +:+ tag) = false →
  py_in "://" (rejoin (host, project, image, tag)) = false →
  parse_docker_pull_link (rejoin (host, project, image, tag)) =
    Ok (host, project, image, tag).
Proof.
  intros Hh Hp Hi Ht Hmark Hscheme. unfold rejoin in *.
  rewrite parse_of_segments by done. rewrite Hmark.
  assert (py_in ":" (image +:+ ":" +:+ tag) = true) as ->.
  { apply py_in_char. rewrite !count_char_app. simpl. lia. }
  change (image +:+ ":" +:+ tag) with (image +:+ String ":" tag).
  by rewrite split_char_app, split_char_none.
Qed.

Lemma parse_of_tagged_witness :
  parse_docker_pull_link (rejoin ("harbor.example.com:8443", "myproject", "team/nginx", "1.25")) =
    Ok ("harbor.example.com:8443", "myproject", "team/nginx", "1.25").
Proof.
  apply parse_of_tagged; reflexivity.
Defined.

(** X3: a pull string [host/project/image] whose image path holds no
    colon is parsed with the default tag [latest], the image being the
    whole text after the project (host and project without slash, no
    [://] in the string). *)
Theorem parse_default_tag (host project image : string) :
  count_char "/" host = 0 →
  count_char "/" project = 0 →
  count_char ":" image = 0 →
  py_in "://" (host +:+ "/" +:+ project +:+ "/" +:+ image) = false →
  parse_docker_pull_link (host +:+ "/" +:+ project +:+ "/" +:+ image) =
    Ok (host, project, image, "latest").
Proof.
  intros Hh Hp Hi Hscheme.
  rewrite parse_of_segments by done.
  destruct (py_in "@sha256:" image) eqn:Hmark.
  { pose proof (py_in_count ":" _ _ Hmark) as Hle. rewrite Hi in Hle.
    simpl in Hle. lia. }
  destruct (py_in ":" image) eqn:Hcolon; [| done].
  apply py_in_char in Hcolon. lia.
Qed.

Lemma parse_default_tag_witness :
  parse_docker_pull_link ("registry.local" +:+ "/" +:+ "library" +:+ "/" +:+ "tools/busybox") =
    Ok ("registry.local", "library", "tools/busybox", "latest").
Proof.
  apply parse_default_tag; reflexivity.
Defined.

(** ** Main: errors never escape *)

(** The parser raises nothing but [ValueError]. *)
Lemma parse_raises_value_error (s : string) (e : exn) :
  parse_docker_pull_link s = Raise e → ∃ msg, e = ValueError msg.
Proof.
  unfold parse_docker_pull_link.
  destruct (py_in "://" s); [intros [= <-]; by eexists |].
  destruct (length (py_split "/" s) <? 3); [intros [= <-]; by eexists |].
  cbv zeta.
  destruct (py_in "@sha256:" _).
  { destruct (unpack2 _) as [[a b]|e'] eqn:E; cbn [bind]; [done |].
    intros [= <-]. by eapply unpack2_raises. }
  destruct (py_in ":" _); [| done].
  destruct (unpack2 _) as [[a b]|e'] eqn:E; cbn [bind]; [done |].
  intros [= <-]. by eapply unpack2_raises.
Qed.

(** X4: [main] never lets an exception escape: whatever the pull string,
    the directory and the registry's answers, it returns, with one of its
    four outcomes. *)
Theorem main_returns (pl od : string) (w : world) :
  ∃ o w', main pl od w = (Ok o, w').
Proof.
  unfold main.
  destruct (parse_docker_pull_link pl) as [[[[h p] i] r]|e] eqn:Ep.
  - unfold io_bind, io_try, io_ret.
    destruct (pull_image h p i r od w) as [[o|e] w1]; [| by eexists _, _].
    destruct (create_image_tar od (tar_path_of i r) pl w1) as [[[]|e] w2];
      by eexists _, _.
  - destruct (parse_raises_value_error _ _ Ep) as [msg ->]. by eexists _, _.
Qed.

(** X5: when the parser rejects the pull string, [main] stops there: no
    request is sent and no file is written, the world is as it was. *)
Theorem main_parse_error (pl od : string) (w : world) (e : exn) :
  parse_docker_pull_link pl = Raise e →
  main pl od w = (Ok ParseError, w).
Proof.
  intros Ep. unfold main. rewrite Ep.
  by destruct (parse_raises_value_error _ _ Ep) as [msg ->].
Qed.

Lemma main_parse_error_witness :
  main "https://harbor.example.com/p/i:t" "out" registry_world =
    (Ok ParseError, registry_world).
Proof.
  apply (main_parse_error _ _ _
           (ValueError "Docker pull link should not include protocol (e.g., http://).")).
  reflexivity.
Defined.

(** ** Registry URLs *)

(** X6: within one repository, the blob URL determines the digest and the
    manifest URL determines the reference, and no manifest URL is a blob
    URL. *)
Theorem urls_distinguish (h p i a b : string) :
  (get_blob_url h p i a = get_blob_url h p i b ↔ a = b) ∧
  (get_manifest_url h p i a = get_manifest_url h p i b ↔ a = b) ∧
  get_manifest_url h p i a ≠ get_blob_url h p i b.
Proof.
  unfold get_blob_url, get_manifest_url.
  split; [| split].
  - split; [| by intros ->]. intros H.
    by repeat apply String.app_inj in H.
  - split; [| by intros ->]. intros H.
    by repeat apply String.app_inj in H.
  - intros H. do 6 apply String.app_inj in H. discriminate H.
Qed.

(** ** Blob downloads and blob file names *)

(** X7: [download_blob] returns only for a string digest answered in
    full with status 200 and a destination that can be opened for
    writing; the path returned is the digest-derived one and the file
    there then holds the response body.  When it raises, the files are
    unchanged, except when the body breaks off after status 200: the
    destination has then been opened, and holds the part received in
    place of what it held before.  Either way one call of
    [requests.get] is recorded and one answer consumed. *)
Theorem download_blob_outcome (h p i od : string) (d : json) (is_config : bool)
    (w w' : world) (res : result string) :
  download_blob h p i d od is_config w = (res, w') →
  let path s := os_path_join od (py_replace ":" "_" s +:+
                                   (if is_config then ".json" else ".tar.gz")) in
  exchanges w' =
    exchanges w ++ [(BlobRequest h p i d, handed true (hd NoAnswer (network w)))] ∧
  network w' = tail (network w) ∧
  match res with
  | Ok q =>
      ∃ s body,
        d = JStr s ∧
        hd NoAnswer (network w) = Answer 200 body ∧
        q = path s ∧
        (path s ∉ locked w) ∧
        files w' = <[path s := body]> (files w)
  | Raise _ =>
      (∀ s received,
         d = JStr s → hd NoAnswer (network w) = Interrupted 200 received →
         path s ∉ locked w →
         files w' = <[path s := received]> (files w)) ∧
      ((∀ received, hd NoAnswer (network w) ≠ Interrupted 200 received) ∨
       (∀ s, d ≠ JStr s) ∨
       (∃ s, d = JStr s ∧ path s ∈ locked w) →
       files w' = files w)
  end.
Proof.
  unfold download_blob, io_bind, http_get_stream, after_get, io_raise, io_lift,
    write_file, io_ret.
  intros Hrun. cbv zeta.
  destruct (hd NoAnswer (network w)) as [|status body|status body]; cbn [handed] in *.
  { injection Hrun as <- <-. by repeat split. }
  all: destruct (Z.eqb_spec status 200) as [->|Hs]; cbn [negb] in Hrun;
    [| injection Hrun as <- <-; split; [done |]; split; [done |];
       split; [intros; congruence | done]].
  all: destruct d as [| | | |s| |]; cbn [py_replace_method] in Hrun;
    try (injection Hrun as <- <-; by repeat split).
  all: cbn [locked] in Hrun.
  all: destruct (decide (_ ∈ locked w)) as [Hl|Hl];
    [injection Hrun as <- <-; split; [done |]; split; [done |];
     split; [intros s' r' [= <-]; done | done] |].
  all: injection Hrun as <- <-; cbn [exchanges network files set_files].
  all: split; [done |]; split; [done |].
  - by exists s, body.
  - split; [by intros s' r' [= <-] [= <-] |].
    intros [Hno|[Hno|(s' & [= <-] & Hin)]]; [by destruct (Hno body) | by destruct (Hno s) | done].
Qed.

Lemma download_blob_outcome_witness :
  exchanges (download_blob "h" "p" "i" (JStr "sha256:bbb") "out" false broken_download_world).2 =
    exchanges broken_download_world ++
    [(BlobRequest "h" "p" "i" (JStr "sha256:bbb"), handed true (hd NoAnswer (network broken_download_world)))] ∧
  network (download_blob "h" "p" "i" (JStr "sha256:bbb") "out" false broken_download_world).2 =
    tail (network broken_download_world) ∧
  match (download_blob "h" "p" "i" (JStr "sha256:bbb") "out" false broken_download_world).1 with
  | Ok q =>
      ∃ s body,
        JStr "sha256:bbb" = JStr s ∧
        hd NoAnswer (network broken_download_world) = Answer 200 body ∧
        q = os_path_join "out" (py_replace ":" "_" s +:+
                                  (if false then ".json" else ".tar.gz")) ∧
        (os_path_join "out" (py_replace ":" "_" s +:+
                               (if false then ".json" else ".tar.gz")) ∉ locked broken_download_world) ∧
        files (download_blob "h" "p" "i" (JStr "sha256:bbb") "out" false broken_download_world).2 =
          <[os_path_join "out" (py_replace ":" "_" s +:+
                                  (if false then ".json" else ".tar.gz")) := body]> (files broken_download_world)
  | Raise _ =>
      (∀ s received,
         JStr "sha256:bbb" = JStr s →
         hd NoAnswer (network broken_download_world) = Interrupted 200 received →
         os_path_join "out" (py_replace ":" "_" s +:+
                               (if false then ".json" else ".tar.gz")) ∉ locked broken_download_world →
         files (download_blob "h" "p" "i" (JStr "sha256:bbb") "out" false broken_download_world).2 =
           <[os_path_join "out" (py_replace ":" "_" s +:+
                                   (if false then ".json" else ".tar.gz")) := received]>
             (files broken_download_world)) ∧
      ((∀ received, hd NoAnswer (network broken_download_world) ≠ Interrupted 200 received) ∨
       (∀ s, JStr "sha256:bbb" ≠ JStr s) ∨
       (∃ s, JStr "sha256:bbb" = JStr s ∧
             os_path_join "out" (py_replace ":" "_" s +:+
                                   (if false then ".json" else ".tar.gz")) ∈ locked broken_download_world) →
       files (download_blob "h" "p" "i" (JStr "sha256:bbb") "out" false broken_download_world).2 = files broken_download_world)
  end.
Proof.
  apply (download_blob_outcome "h" "p" "i" "out" (JStr "sha256:bbb") false broken_download_world).
  vm_compute. reflexivity.
Defined.

Lemma py_replace_count_old (old new : ascii) (s : string) :
  old ≠ new → count_char old (py_replace old new s) = 0.
Proof.
  intros Hne. induction s as [|c s IH]; [done |].
  cbn [py_replace count_char]. rewrite IH.
  destruct (Ascii.eqb_spec c old) as [->|Hc].
  - by destruct (Ascii.eqb_spec new old) as [->|].
  - by destruct (Ascii.eqb_spec c old).
Qed.

Lemma py_replace_inj (old new : ascii) (a b : string) :
  count_char new a = 0 → count_char new b = 0 →
  py_replace old new a = py_replace old new b → a = b.
Proof.
  revert b. induction a as [|x a IH]; intros [|y b]; try done.
  cbn [count_char py_replace].
  destruct (Ascii.eqb_spec x new) as [|Hx]; [done |].
  destruct (Ascii.eqb_spec y new) as [|Hy]; [done |].
  intros Ha Hb [= Hxy Hab]. f_equal; [| by apply IH].
  destruct (Ascii.eqb_spec x old) as [->|]; destruct (Ascii.eqb_spec y old) as [->|];
    congruence.
Qed.

Lemma string_app_inj_r (a b s : string) : a +:+ s = b +:+ s → a = b.
Proof.
  revert b. induction a as [|x a IH]; intros [|y b] H; [done | | |].
  - apply (f_equal String.length) in H.
    rewrite string_app_nil_l, string_app_cons in H. cbn [String.length] in H.
    rewrite string_length_app in H. lia.
  - apply (f_equal String.length) in H.
    rewrite string_app_nil_l, string_app_cons in H. cbn [String.length] in H.
    rewrite string_length_app in H. lia.
  - rewrite !string_app_cons in H. injection H as -> H. f_equal. by apply IH.
Qed.

(** X8: the digest-to-filename mapping keeps apart the digests that hold
    no underscore (as every [sha256:<hex>] digest): distinct digests get
    distinct layer files and distinct config files; a config file is
    never a layer file; and no file name holds a colon. *)
Theorem blob_file_names (d1 d2 : string) :
  count_char "_" d1 = 0 →
  count_char "_" d2 = 0 →
  (layer_file_name d1 = layer_file_name d2 → d1 = d2) ∧
  (config_file_name d1 = config_file_name d2 → d1 = d2) ∧
  config_file_name d1 ≠ layer_file_name d2 ∧
  count_char ":" (layer_file_name d1) = 0 ∧
  count_char ":" (config_file_name d1) = 0.
Proof.
  intros H1 H2. unfold layer_file_name, config_file_name.
  split; [| split; [| split; [| split]]].
  - intros E. apply string_app_inj_r in E. by eapply py_replace_inj.
  - intros E. apply string_app_inj_r in E. by eapply py_replace_inj.
  - intros E. apply (f_equal last_char) in E.
    rewrite !last_char_app in E by done. discriminate E.
  - by rewrite count_char_app, py_replace_count_old.
  - by rewrite count_char_app, py_replace_count_old.
Qed.

Lemma blob_file_names_witness :
  (layer_file_name "sha256:0a1b" = layer_file_name "sha256:0a1c" →
   "sha256:0a1b" = "sha256:0a1c") ∧
  (config_file_name "sha256:0a1b" = config_file_name "sha256:0a1c" →
   "sha256:0a1b" = "sha256:0a1c") ∧
  config_file_name "sha256:0a1b" ≠ layer_file_name "sha256:0a1c" ∧
  count_char ":" (layer_file_name "sha256:0a1b") = 0 ∧
  count_char ":" (config_file_name "sha256:0a1b") = 0.
Proof.
  apply blob_file_names; reflexivity.
Defined.

(** ** Registry client: where a pull stops *)

Lemma pull_image_manifest_failure (h p i r od : string) (w : world) :
  dir_ready w od = true →
  exchange_ok (ManifestRequest h p i r, hd NoAnswer (network w)) = false →
  pull_image h p i r od w =
    (Ok ManifestFetchFailed,
     World (files w) (locked w) (tail (network w))
           (exchanges w ++
            [(ManifestRequest h p i r, handed false (hd NoAnswer (network w)))])).
Proof.
  intros Hdir Hbad.
  unfold pull_image. unfold io_bind at 1, makedirs. rewrite Hdir.
  unfold io_bind, io_try, get_manifest, io_bind, http_get, after_get, io_raise, io_ret.
  destruct (hd NoAnswer (network w)) as [|status body|status body]; [done | | done].
  cbn [exchange_ok] in Hbad.
  destruct (Z.eqb_spec status 200) as [->|Hs]; cbn [negb]; [| done].
  by destruct body.
Qed.

(** X9: when the output directory exists or can be created and the
    manifest fetch fails (no answer, a status other than 200, a body
    that breaks off or is not JSON), [pull_image] returns at once: the
    manifest request is the only exchange, no blob is requested and no
    file is written. *)
Theorem pull_stops_at_manifest (h p i r od : string) (w : world) :
  dir_ready w od = true →
  exchange_ok (ManifestRequest h p i r, hd NoAnswer (network w)) = false →
  pull_image h p i r od w =
    (Ok ManifestFetchFailed,
     World (files w) (locked w) (tail (network w))
           (exchanges w ++
            [(ManifestRequest h p i r, handed false (hd NoAnswer (network w)))])).
Proof. apply pull_image_manifest_failure. Qed.

Lemma pull_stops_at_manifest_witness :
  pull_image "h" "p" "i" "t" "out"
    (World pulled_dir ∅ [Answer 401 (Bytes "unauthorized"); Answer 200 (Bytes "x")] []) =
    (Ok ManifestFetchFailed,
     World pulled_dir ∅ [Answer 200 (Bytes "x")]
       [(ManifestRequest "h" "p" "i" "t", Answer 401 (Bytes "unauthorized"))]).
Proof.
  apply (pull_stops_at_manifest "h" "p" "i" "t" "out"
           (World pulled_dir ∅ [Answer 401 (Bytes "unauthorized"); Answer 200 (Bytes "x")] [])).
  - vm_compute. reflexivity.
  - reflexivity.
Defined.









(** ** Main: what follows a failed pull *)

(** X12: with an output directory that exists or can be created, a
    served document from which no config digest can be read (an object
    without [config], as a manifest list is, or anything that is not an
    object) makes [pull_image] raise, and [main] then stops without
    running the assembly: the manifest request is the only exchange and
    no file is written. *)
Theorem main_stops_on_unreadable_manifest (pl od h p i r : string) (w : world)
    (m : json) (rest : list answer) (e : exn) :
  parse_docker_pull_link pl = Ok (h, p, i, r) →
  dir_ready w od = true →
  network w = Answer 200 (Doc m) :: rest →
  (let* config := py_getitem m "config" in py_getitem config "digest") = Raise e →
  pull_image h p i r od w =
    (Raise e,
     World (files w) (locked w) rest
           (exchanges w ++ [(ManifestRequest h p i r, Answer 200 (Doc m))])) ∧
  main pl od w =
    (Ok PullError,
     World (files w) (locked w) rest
           (exchanges w ++ [(ManifestRequest h p i r, Answer 200 (Doc m))])).
Proof.
  intros Hparse Hdir Hnet He.
  assert (pull_image h p i r od w =
            (Raise e,
             World (files w) (locked w) rest
                   (exchanges w ++ [(ManifestRequest h p i r, Answer 200 (Doc m))])))
    as Hpull.
  { unfold pull_image. unfold io_bind at 1, makedirs. rewrite Hdir.
    unfold io_bind at 1, io_try at 1, get_manifest, io_bind at 1, http_get, after_get.
    rewrite Hnet. cbn [hd tail handed Z.eqb Pos.eqb negb io_ret].
    unfold io_bind at 1, io_lift at 1. by rewrite He. }
  split; [done |].
  unfold main. rewrite Hparse. unfold io_bind at 1, io_try at 1. by rewrite Hpull.
Qed.

Lemma main_stops_on_unreadable_manifest_witness :
  pull_image "h" "p" "i" "t" "out"
    (World pulled_dir ∅ [Answer 200 (Doc (JObj [("manifests", JArr [])]))] []) =
    (Raise (KeyError "config"),
     World pulled_dir ∅ []
       ([] ++ [(ManifestRequest "h" "p" "i" "t",
                Answer 200 (Doc (JObj [("manifests", JArr [])])))])) ∧
  main "h/p/i:t" "out"
    (World pulled_dir ∅ [Answer 200 (Doc (JObj [("manifests", JArr [])]))] []) =
    (Ok PullError,
     World pulled_dir ∅ []
       ([] ++ [(ManifestRequest "h" "p" "i" "t",
                Answer 200 (Doc (JObj [("manifests", JArr [])])))])).
Proof.
  apply (main_stops_on_unreadable_manifest "h/p/i:t" "out" "h" "p" "i" "t"
           (World pulled_dir ∅ [Answer 200 (Doc (JObj [("manifests", JArr [])]))] []));
    first [reflexivity | vm_compute; reflexivity].
Defined.



(** ** Archive assembler: when a run returns, and what any run touches *)

Lemma repo_tag_of_returns (pl : string) :
  (∃ tag, repo_tag_of pl = Ok tag) ↔ occurrences "@sha256:" pl ≤ 1.
Proof.
  split; [| apply repo_tag_of_defined].
  intros [tag Htag]. unfold repo_tag_of in Htag.
  destruct (py_in "@sha256:" pl) eqn:E.
  - destruct (unpack2 (py_split "@sha256:" pl)) as [[a b]|] eqn:Eu; [| done].
    assert (length (py_split "@sha256:" pl) = 2) as Hlen.
    { apply unpack2_returns. by eexists. }
    rewrite (split_length "@" "sha256:" pl) in Hlen by done. lia.
  - apply py_in_false in E. lia.
Qed.

Lemma config_file_of_checks (m : json) (cfile : string) :
  config_file_of m = Ok cfile →
  py_truthy m = true ∧ is_dict m = true ∧ dict_has "config" m = true.
Proof.
  unfold config_file_of. destruct m as [| | | | | |f]; try done.
  cbn [py_getitem dict_has is_dict py_truthy].
  destruct f as [|kv f]; [done |].
  by destruct (assoc "config" (kv :: f)).
Qed.

Lemma layer_files_of_checks (m : json) (lfiles : list string) :
  layer_files_of m = Ok lfiles → dict_has "layers" m = true.
Proof.
  unfold layer_files_of. destruct m as [| | | | | |f]; try done.
  cbn [py_getitem dict_has]. by destruct (assoc "layers" f).
Qed.

(** X14: [create_image_tar] returns exactly when [manifest.json] holds a
    JSON document from which the config file name and the layer file
    names can be read, the config file and every layer file exist, the
    pull string holds the digest marker at most once, and both
    [manifest.json] and the archive path can be opened for writing. *)
Theorem create_image_tar_returns_iff (od tp pl : string) (w : world) :
  (∃ w', create_image_tar od tp pl w = (Ok (), w')) ↔
  ∃ m cfile lfiles,
    files w !! os_path_join od "manifest.json" = Some (Doc m) ∧
    config_file_of m = Ok cfile ∧ layer_files_of m = Ok lfiles ∧
    is_Some (files w !! os_path_join od cfile) ∧
    Forall (λ f, is_Some (files w !! os_path_join od f)) lfiles ∧
    occurrences "@sha256:" pl ≤ 1 ∧
    (os_path_join od "manifest.json" ∉ locked w) ∧ (tp ∉ locked w).
Proof.
  split.
  - intros [w' Hrun].
    destruct (create_image_tar_cases od tp pl w)
      as [(e0 & H0 & Hos)|(m & cfile & lfiles & tag & Hm & Hcf & Hlf & Hc & Hls & Ht & Hlm & H1)].
    { rewrite H0 in Hrun. done. }
    exists m, cfile, lfiles. repeat split; try done.
    + apply repo_tag_of_returns. by eexists.
    + intros Hl. rewrite H1, write_archive_locked in Hrun; done.
  - intros (m & cfile & lfiles & Hm & Hcf & Hlf & [cc Hc] & Hls & Hpl & Hlm & Hlt).
    destruct (config_file_of_checks _ _ Hcf) as (Ht & Hi & Hhc).
    pose proof (layer_files_of_checks _ _ Hlf) as Hhl.
    destruct (proj2 (repo_tag_of_returns pl) Hpl) as [tag Htag].
    unfold create_image_tar.
    unfold io_bind at 1, path_exists at 1, file_present at 1. rewrite Hm. cbn [negb].
    unfold io_bind at 1, load_manifest. rewrite Hm, Ht, Hi, Hhc, Hhl. cbn [negb orb].
    unfold io_bind at 1, io_lift at 1. rewrite Hcf.
    unfold io_bind at 1, io_lift at 1. rewrite Hlf.
    unfold io_bind at 1, path_exists at 1, file_present at 1. rewrite Hc. cbn [negb].
    unfold io_bind at 1. rewrite check_layers_ok by done.
    unfold io_bind at 1, io_lift at 1. rewrite Htag.
    unfold io_bind at 1, write_file at 1.
    destruct (decide (os_path_join od "manifest.json" ∈ locked w)); [done |].
    destruct (write_archive_total od tp cfile lfiles
                (set_files w (<[os_path_join od "manifest.json" :=
                   Doc (docker_manifest cfile tag lfiles)]> (files w))))
      as (w2 & H2 & _).
    + done.
    + simpl. rewrite lookup_insert_eq. by eexists.
    + simpl. apply lookup_insert_is_Some'; right. by eexists.
    + eapply Forall_impl; [exact Hls |]. intros f Hf. simpl.
      by apply lookup_insert_is_Some'; right.
    + exists w2. exact H2.
Qed.

(** X15: whatever its outcome, a run of [create_image_tar] sends no
    request and consumes no answer, removes no file, and changes no file
    other than [manifest.json] and the file at the archive path. *)
Theorem create_image_tar_frame (od tp pl : string) (w : world) :
  let w' := (create_image_tar od tp pl w).2 in
  network w' = network w ∧ exchanges w' = exchanges w ∧ locked w' = locked w ∧
  (∀ q, is_Some (files w !! q) → is_Some (files w' !! q)) ∧
  (∀ q, q ≠ os_path_join od "manifest.json" → q ≠ tp → files w' !! q = files w !! q).
Proof.
  destruct (create_image_tar od tp pl w) as [res w'] eqn:Hrun. cbn [snd].
  destruct (create_image_tar_cases od tp pl w)
    as [(e0 & H0 & Hos)|(m & cfile & lfiles & tag & Hm & _ & _ & Hc & Hls & _ & _ & H1)].
  { rewrite H0 in Hrun. by injection Hrun as <- <-. }
  rewrite H1 in Hrun. set (w1 := set_files w _) in *.
  assert (∀ q, is_Some (files w !! q) → is_Some (files w1 !! q)) as Hkeep.
  { intros q Hq. subst w1. simpl. by apply lookup_insert_is_Some'; right. }
  assert (∀ q, q ≠ os_path_join od "manifest.json" → files w1 !! q = files w !! q)
    as Hother.
  { intros q Hq. subst w1. simpl. by rewrite lookup_insert_ne. }
  destruct (decide (tp ∈ locked w)) as [Hl|Hl].
  - rewrite write_archive_locked in Hrun by done.
    injection Hrun as <- <-. repeat split; try done. intros q Hq _. by apply Hother.
  - destruct (write_archive_total od tp cfile lfiles w1) as (w2 & H2 & Hsame & [ms Hms]).
    + done.
    + subst w1. simpl. rewrite lookup_insert_eq. by eexists.
    + by apply Hkeep.
    + eapply Forall_impl; [exact Hls |]. intros f Hf. by apply Hkeep.
    + rewrite H2 in Hrun. injection Hrun as <- <-.
      destruct Hsame as (Hlk & Hn & Hx & Hf).
      repeat split; try done.
      * intros q Hq. destruct (decide (q = tp)) as [->|Hne].
        -- rewrite Hms. by eexists.
        -- rewrite Hf by done. by apply Hkeep.
      * intros q Hq Hqt. rewrite Hf by done. by apply Hother.
Qed.

(** X16: a failed [create_image_tar] names its cause.  The
    [FileNotFoundError] it raises itself carries one of the three
    messages of its existence checks followed by the path of a required
    file of the output directory, and that file is indeed absent.  A
    refusal of the operating system (whatever the Python class of the
    error, the [FileNotFoundError] of a missing parent directory among
    them) is for opening [manifest.json] or the archive for writing, and
    that path cannot be opened.  A [KeyError] is for the key [digest]:
    the keys [config] and [layers] are checked before they are read.
    [ValueError], [TypeError] and [AttributeError] arise only with
    [manifest.json] present.  The class [Exception] itself is never
    raised.  (Every present file being readable, adding the members
    raises nothing.) *)
Theorem create_image_tar_error_cause (od tp pl : string) (w w' : world) (e : exn) :
  create_image_tar od tp pl w = (Raise e, w') →
  match e with
  | FileNotFoundError msg =>
      ∃ name, files w !! os_path_join od name = None ∧
              (msg = "Manifest file not found: " +:+ os_path_join od name ∨
               msg = "Config file not found: " +:+ os_path_join od name ∨
               msg = "Layer file not found: " +:+ os_path_join od name)
  | OSError q =>
      q ∈ locked w ∧ (q = os_path_join od "manifest.json" ∨ q = tp)
  | KeyError key => key = "digest"
  | Exception _ => False
  | ValueError _ | TypeError _ | AttributeError _ =>
      is_Some (files w !! os_path_join od "manifest.json")
  end.
Proof.
  unfold create_image_tar.
  unfold io_bind at 1, path_exists at 1, file_present at 1.
  destruct (files w !! os_path_join od "manifest.json") as [c|] eqn:Em; cbn [negb].
  2: { intros [= <- <-]. exists "manifest.json". split; [done | by left]. }
  unfold io_bind at 1, load_manifest. rewrite Em.
  destruct c as [m| |]; try (by intros [= <- <-]).
  destruct (py_truthy m); cbn [negb]; [| by intros [= <- <-]].
  destruct (is_dict m); cbn [negb]; [| by intros [= <- <-]].
  destruct (dict_has "config" m) eqn:Hc; cbn [negb orb]; [| by intros [= <- <-]].
  destruct (dict_has "layers" m) eqn:Hl; cbn [negb orb]; [| by intros [= <- <-]].
  unfold io_bind at 1, io_lift at 1.
  destruct (config_file_of m) as [cfile|e0] eqn:Ecf.
  2: { intros [= <- <-].
       destruct (config_file_of_raises m e0 Hc Ecf) as [->|[[msg ->]|[msg ->]]]; done. }
  unfold io_bind at 1, io_lift at 1.
  destruct (layer_files_of m) as [lfiles|e0] eqn:Elf.
  2: { intros [= <- <-].
       destruct (layer_files_of_raises m e0 Hl Elf) as [->|[[msg ->]|[msg ->]]]; done. }
  unfold io_bind at 1, path_exists at 1, file_present at 1.
  destruct (files w !! os_path_join od cfile) as [cc|] eqn:Ec; cbn [negb].
  2: { intros [= <- <-]. exists cfile. split; [done | right; by left]. }
  unfold io_bind at 1.
  destruct (check_layers od lfiles w) as [[[]|e0] w0] eqn:Ecl.
  2: { intros [= <- <-].
       destruct (check_layers_raises _ _ _ _ _ Ecl) as (f & _ & Hf & ->).
       exists f. split; [done | right; by right]. }
  pose proof (check_layers_frame _ _ _ _ _ Ecl) as ->.
  apply check_layers_ok_inv in Ecl.
  unfold io_bind at 1, io_lift at 1.
  destruct (repo_tag_of pl) as [tag|e0] eqn:Et.
  2: { intros [= <- <-]. by destruct (repo_tag_of_raises pl e0 Et) as [msg ->]. }
  unfold io_bind at 1, write_file at 1.
  destruct (decide (os_path_join od "manifest.json" ∈ locked w)) as [Hlm|Hlm].
  { intros [= <- <-]. split; [done | by left]. }
  set (w1 := set_files w _).
  destruct (decide (tp ∈ locked w)) as [Hlt|Hlt].
  { rewrite write_archive_locked by done. intros [= <- <-]. split; [done | by right]. }
  destruct (write_archive_total od tp cfile lfiles w1) as (w2 & -> & _).
  - done.
  - subst w1. simpl. rewrite lookup_insert_eq. by eexists.
  - subst w1. simpl. apply lookup_insert_is_Some'; right. by eexists.
  - eapply Forall_impl; [exact Ecl |]. intros f Hf. subst w1. simpl.
    by apply lookup_insert_is_Some'; right.
  - done.
Qed.

Lemma create_image_tar_error_cause_witness :
  ∃ name, files (World dir_without_layer ∅ [] []) !! os_path_join "out" name = None ∧
          ("Layer file not found: out/sha256_bbb.tar.gz"
             = "Manifest file not found: " +:+ os_path_join "out" name ∨
           "Layer file not found: out/sha256_bbb.tar.gz"
             = "Config file not found: " +:+ os_path_join "out" name ∨
           "Layer file not found: out/sha256_bbb.tar.gz"
             = "Layer file not found: " +:+ os_path_join "out" name).
Proof.
  apply (create_image_tar_error_cause "out" "img.tar" "h/p/i:t"
           (World dir_without_layer ∅ [] []) (World dir_without_layer ∅ [] [])
           (FileNotFoundError "Layer file not found: out/sha256_bbb.tar.gz")).
  vm_compute. reflexivity.
Defined.

(** ** Registry client: pulling the same image twice *)

(** The content a layer loop leaves at a layer path does not depend on
    what the directory held before. *)
Lemma write_blobs_base (od : string) (fs fs' : gmap string content) (ds : list string)
    (bodies : list content) (q : string) :
  length bodies = length ds →
  fs !! q = fs' !! q ∨ q ∈ ((λ d, os_path_join od (layer_file_name d)) <$> ds) →
  write_blobs od fs (zip ds bodies) !! q = write_blobs od fs' (zip ds bodies) !! q.
Proof.
  revert fs fs' bodies. induction ds as [|d ds IH]; intros fs fs' bodies Hlen Hq.
  - destruct Hq as [Hq|Hq]; [done | by apply elem_of_nil in Hq].
  - destruct bodies as [|b bodies]; [done |].
    cbn [zip zip_with write_blobs]. apply IH; [simpl in Hlen; lia |].
    destruct (decide (q = os_path_join od (layer_file_name d))) as [->|Hne].
    + left. by rewrite !lookup_insert_eq.
    + destruct Hq as [Hq|Hq].
      * left. by rewrite !lookup_insert_ne.
      * right. rewrite fmap_cons in Hq. apply elem_of_cons in Hq as [|]; done.
Qed.

Lemma write_blobs_again (od : string) (fs : gmap string content) (ds : list string)
    (bodies : list content) (x : content) :
  length bodies = length ds →
  <[os_path_join od "manifest.json" := x]>
    (write_blobs od
       (<[os_path_join od "manifest.json" := x]> (write_blobs od fs (zip ds bodies)))
       (zip ds bodies)) =
  <[os_path_join od "manifest.json" := x]> (write_blobs od fs (zip ds bodies)).
Proof.
  intros Hlen. apply map_eq. intros q.
  destruct (decide (q = os_path_join od "manifest.json")) as [->|Hq].
  { by rewrite !lookup_insert_eq. }
  rewrite !lookup_insert_ne by done.
  destruct (decide (q ∈ ((λ d, os_path_join od (layer_file_name d)) <$> ds))) as [Hin|Hnot].
  - apply write_blobs_base; [done | by right].
  - rewrite write_blobs_other; [by rewrite lookup_insert_ne |].
    apply Forall_forall. intros d Hd E. apply Hnot.
    apply list_elem_of_fmap. by exists d.
Qed.

(** The output directory and its ancestors are no longer than the
    directory's path, and the files a pull writes lie below it. *)
Lemma ancestors_from_length (pre rest q : string) :
  q ∈ ancestors_from pre rest →
  String.length q < String.length pre + String.length rest.
Proof.
  revert pre. induction rest as [|c rest IH]; intros pre Hq; cbn [ancestors_from] in Hq.
  - by apply elem_of_nil in Hq.
  - apply elem_of_app in Hq as [Hq|Hq].
    + destruct (Ascii.eqb c "/" && negb (String.eqb pre "")); [| by apply elem_of_nil in Hq].
      apply list_elem_of_singleton in Hq as ->. cbn [String.length]. lia.
    + apply IH in Hq. rewrite string_length_app in Hq. cbn [String.length] in *. lia.
Qed.

Lemma dir_ready_same (w w' : world) (od : string) :
  locked w' = locked w →
  (∀ q, String.length q ≤ String.length od → files w' !! q = files w !! q) →
  dir_ready w' od = dir_ready w od.
Proof.
  intros Hl Hf. unfold dir_ready. rewrite Hl. f_equal. f_equal.
  assert (Forall (λ q, String.length q ≤ String.length od) (od :: ancestors od)) as Hlen.
  { constructor; [done |]. apply Forall_forall. intros q Hq.
    apply ancestors_from_length in Hq. cbn [String.length] in Hq. lia. }
  induction Hlen as [|q qs Hq _ IH]; [done |].
  cbn [forallb]. rewrite IH. unfold file_present. by rewrite (Hf q Hq).
Qed.

Lemma last_char_none (s : string) : last_char s = None → s = "".
Proof.
  induction s as [|c s IH]; [done |]. cbn [last_char].
  destruct s as [|d s]; [done |]. intros H. by specialize (IH H).
Qed.

Lemma os_path_join_longer (od name : string) :
  String.prefix "/" name = false → name ≠ "" →
  String.length od < String.length (os_path_join od name).
Proof.
  intros Hp Hn. unfold os_path_join. rewrite Hp.
  assert (0 < String.length name) by (destruct name; [done | cbn; lia]).
  destruct (last_char od) as [c|] eqn:El.
  - destruct (Ascii.eqb c "/"); rewrite !string_length_app; cbn [String.length]; lia.
  - apply last_char_none in El as ->. cbn [String.length]. lia.
Qed.

Lemma blob_name_relative (d suffix : string) :
  String.prefix "/" d = false → String.prefix "/" suffix = false →
  String.prefix "/" (py_replace ":" "_" d +:+ suffix) = false.
Proof.
  destruct d as [|c d]; [by rewrite string_app_nil_l |].
  cbn [py_replace]. rewrite string_app_cons, !prefix_char. intros Hc _.
  destruct (Ascii.eqb_spec c ":") as [->|]; [done | exact Hc].
Qed.

Lemma blob_path_longer (od d suffix : string) :
  String.prefix "/" d = false → String.prefix "/" suffix = false → suffix ≠ "" →
  String.length od < String.length (os_path_join od (py_replace ":" "_" d +:+ suffix)).
Proof.
  intros Hd Hs Hne. apply os_path_join_longer; [by apply blob_name_relative |].
  intros E. apply (f_equal String.length) in E. rewrite string_length_app in E.
  destruct suffix; [done |]. cbn [String.length] in E. lia.
Qed.

(** A pull that succeeds leaves the output directory usable: with
    digests that do not start with a slash, every file it writes lies
    below the directory. *)
Lemma dir_ready_after_blobs (w : world) (od cd : string) (ds : list string)
    (base : gmap string content) (bodies : list content) (x : content)
    (lk : gset string) (nw : list answer) (ex : list (request * answer)) :
  dir_ready w od = true →
  lk = locked w →
  String.prefix "/" cd = false →
  Forall (λ d, String.prefix "/" d = false) ds →
  (∀ q, q ≠ os_path_join od (config_file_name cd) → base !! q = files w !! q) →
  dir_ready (World (<[os_path_join od "manifest.json" := x]>
                      (write_blobs od base (zip ds bodies))) lk nw ex) od = true.
Proof.
  intros Hdir -> Hcd Hds Hbase.
  etrans; [| exact Hdir].
  apply dir_ready_same; [done |]. intros q Hq. cbn [files].
  rewrite lookup_insert_ne.
  2: { intros <-. pose proof (os_path_join_longer od "manifest.json" eq_refl
                                ltac:(done)). lia. }
  rewrite write_blobs_other.
  2: { apply Forall_forall. intros d Hin E. subst q.
       pose proof (blob_path_longer od d ".tar.gz"
                     (proj1 (Forall_forall _ _) Hds d Hin) eq_refl ltac:(done)) as Hlen.
       unfold layer_file_name in Hq. lia. }
  apply Hbase. intros ->.
  pose proof (blob_path_longer od cd ".json" Hcd eq_refl ltac:(done)) as Hlen.
  unfold config_file_name in Hq. lia.
Qed.

(** X17: pulling the same image twice.  When the output directory exists
    or can be created, no digest starts with a slash, and the registry
    serves the same registry-format manifest and the same layer bodies
    to both runs, the second run ends [Pulled] as the first one did,
    leaves every file as the first run left it, and sends the manifest
    request and one request per layer, but no request for the config
    blob. *)
Theorem pull_twice (h p i r od : string) (w : world) (m : json) (cd : string)
    (ds : list string) (cbody : content) (bodies : list content) (rest : list answer) :
  dir_ready w od = true →
  manifest_digests m = Some (cd, ds) →
  String.prefix "/" cd = false →
  Forall (λ d, String.prefix "/" d = false) ds →
  length bodies = length ds →
  network w =
    Answer 200 (Doc m) ::
    (if file_present w (os_path_join od (config_file_name cd)) then []
     else [Answer 200 cbody]) ++
    map (Answer 200) bodies ++
    Answer 200 (Doc m) :: map (Answer 200) bodies ++ rest →
  os_path_join od (config_file_name cd) ∉ locked w →
  Forall (λ d, os_path_join od (layer_file_name d) ∉ locked w) ds →
  os_path_join od "manifest.json" ∉ locked w →
  ∃ w1 w2,
    pull_image h p i r od w = (Ok Pulled, w1) ∧
    pull_image h p i r od w1 = (Ok Pulled, w2) ∧
    files w2 = files w1 ∧
    network w2 = rest ∧
    exchanges w2 =
      exchanges w1 ++
      (ManifestRequest h p i r, Answer 200 (Doc m)) ::
      zip_with (λ d b, (BlobRequest h p i (JStr d), Answer 200 b)) ds bodies.
Proof.
  intros Hdir Hd Hcdrel Hdsrel Hlen Hnet Hlc Hll Hlm.
  pose proof (pull_image_ok h p i r od w m cd ds cbody bodies
                (Answer 200 (Doc m) :: map (Answer 200) bodies ++ rest)
                Hdir Hd Hlen Hnet Hlc Hll Hlm) as H1.
  set (base := if file_present w (os_path_join od (config_file_name cd)) then files w
               else <[os_path_join od (config_file_name cd) := cbody]> (files w)) in *.
  assert (∀ q, q ≠ os_path_join od (config_file_name cd) → base !! q = files w !! q)
    as Hbase.
  { intros q Hq. subst base. destruct (file_present w _); [done |].
    by rewrite lookup_insert_ne. }
  pose proof (dir_ready_after_blobs w od cd ds base bodies (Doc m) (locked w)
                (Answer 200 (Doc m) :: map (Answer 200) bodies ++ rest)
                (exchanges w ++
                 (ManifestRequest h p i r, Answer 200 (Doc m)) ::
                 (if file_present w (os_path_join od (config_file_name cd)) then []
                  else [(BlobRequest h p i (JStr cd), Answer 200 cbody)]) ++
                 zip_with (λ d b, (BlobRequest h p i (JStr d), Answer 200 b)) ds bodies)
                Hdir eq_refl Hcdrel Hdsrel Hbase) as Hdir1.
  set (w1 := World _ _ _ _) in H1, Hdir1.
  assert (files w1 = <[os_path_join od "manifest.json" := Doc m]>
                       (write_blobs od base (zip ds bodies))) as Hf1 by done.
  assert (locked w1 = locked w) as Hl1 by done.
  assert (network w1 = Answer 200 (Doc m) :: map (Answer 200) bodies ++ rest) as Hn1
    by done.
  assert (file_present w1 (os_path_join od (config_file_name cd)) = true) as Hp1.
  { unfold file_present. rewrite Hf1.
    assert (is_Some (base !! os_path_join od (config_file_name cd))) as Hb.
    { subst base. unfold file_present.
      destruct (files w !! os_path_join od (config_file_name cd)) eqn:E;
        [by eexists | rewrite lookup_insert_eq; by eexists]. }
    assert (is_Some (<[os_path_join od "manifest.json" := Doc m]>
                       (write_blobs od base (zip ds bodies))
                     !! os_path_join od (config_file_name cd))) as [c ->]; [| done].
    apply lookup_insert_is_Some'; right. by apply write_blobs_keeps. }
  clearbody w1.
  pose proof (pull_image_ok h p i r od w1 m cd ds cbody bodies rest Hdir1 Hd Hlen) as H2.
  rewrite Hp1, Hl1 in H2. specialize (H2 Hn1 Hlc Hll Hlm).
  exists w1. eexists. split; [exact H1 |]. split; [exact H2 |].
  cbn [files network exchanges]. split; [| done].
  rewrite Hf1. by apply write_blobs_again.
Qed.

Lemma pull_twice_witness :
  ∃ w1 w2,
    pull_image "h" "p" "i" "t" "out"
      (World ∅ ∅ [Answer 200 (Doc registry_doc); Answer 200 (Bytes "cfg");
                  Answer 200 (Bytes "layer");
                  Answer 200 (Doc registry_doc); Answer 200 (Bytes "layer")] [])
      = (Ok Pulled, w1) ∧
    pull_image "h" "p" "i" "t" "out" w1 = (Ok Pulled, w2) ∧
    files w2 = files w1 ∧
    network w2 = [] ∧
    exchanges w2 =
      exchanges w1 ++
      (ManifestRequest "h" "p" "i" "t", Answer 200 (Doc registry_doc)) ::
      zip_with (λ d b, (BlobRequest "h" "p" "i" (JStr d), Answer 200 b))
        ["sha256:bbb"] [Bytes "layer"].
Proof.
  apply (pull_twice "h" "p" "i" "t" "out" _ registry_doc "sha256:aaa" ["sha256:bbb"]
           (Bytes "cfg") [Bytes "layer"] []).
  - vm_compute. reflexivity.
  - reflexivity.
  - reflexivity.
  - repeat constructor.
  - reflexivity.
  - reflexivity.
  - vm_compute. set_solver.
  - repeat constructor. vm_compute. set_solver.
  - vm_compute. set_solver.
Defined.

(** ** Registry client: the output directory, and a download that breaks off *)

Lemma dir_ready_causes (w : world) (od : string) :
  od = "" ∨ is_Some (files w !! od) ∨
  (∃ q, q ∈ ancestors od ∧ is_Some (files w !! q)) ∨ od ∈ locked w →
  dir_ready w od = false.
Proof.
  unfold dir_ready. intros [->|[[c Hc]|[(q & Hq & [c Hc])|Hl]]].
  - done.
  - cbn [forallb]. unfold file_present at 1. rewrite Hc.
    by rewrite andb_false_r.
  - assert (forallb (λ q, negb (file_present w q)) (od :: ancestors od) = false) as ->;
      [| by rewrite andb_false_r].
    apply not_true_is_false. intros Hall.
    rewrite forallb_forall in Hall.
    specialize (Hall q ltac:(apply list_elem_of_In; by right)).
    unfold file_present in Hall. by rewrite Hc in Hall.
  - rewrite (bool_decide_eq_false_2 (od ∉ locked w)); [| by intros H; apply H].
    by rewrite andb_false_r.
Qed.

(** X20: [pull_image] creates the output directory before anything else,
    outside every [try].  When the directory neither exists nor can be
    created (its path is empty, it or one of its ancestors is a regular
    file, or the operating system refuses), the pull raises before any
    request is sent and [main] reports a pull error: nothing is fetched,
    nothing is written, and the assembly does not run. *)
Theorem pull_needs_directory (pl od h p i r : string) (w : world) :
  od = "" ∨ is_Some (files w !! od) ∨
  (∃ q, q ∈ ancestors od ∧ is_Some (files w !! q)) ∨ od ∈ locked w →
  pull_image h p i r od w = (Raise (OSError od), w) ∧
  (parse_docker_pull_link pl = Ok (h, p, i, r) → main pl od w = (Ok PullError, w)).
Proof.
  intros Hwhy. apply dir_ready_causes in Hwhy.
  assert (pull_image h p i r od w = (Raise (OSError od), w)) as Hpull.
  { unfold pull_image, io_bind, makedirs. by rewrite Hwhy. }
  split; [done |]. intros Hparse.
  unfold main. rewrite Hparse. unfold io_bind at 1, io_try at 1. by rewrite Hpull.
Qed.

Lemma pull_needs_directory_witness :
  pull_image "h" "p" "i" "t" "" registry_world = (Raise (OSError ""), registry_world) ∧
  (parse_docker_pull_link "h/p/i:t" = Ok ("h", "p", "i", "t") →
   main "h/p/i:t" "" registry_world = (Ok PullError, registry_world)).
Proof.
  apply (pull_needs_directory "h/p/i:t" "" "h" "p" "i" "t" registry_world).
  by left.
Defined.




(** ** Reference parser: the shape of an accepted pull string *)

Lemma unpack2_ok (l : list string) (a b : string) :
  unpack2 l = Ok (a, b) → l = [a; b].
Proof. destruct l as [|x [|y [|z l]]]; simpl; intros [=]; by subst. Qed.

(** The three shapes of an accepted pull string. *)
Lemma parse_decompose (s h p i r : string) :
  parse_docker_pull_link s = Ok (h, p, i, r) →
  count_char "/" h = 0 ∧ count_char "/" p = 0 ∧
  ((∃ hex, r = "sha256:" +:+ hex ∧
           s = h +:+ "/" +:+ p +:+ "/" +:+ i +:+ "@sha256:" +:+ hex) ∨
   (s = h +:+ "/" +:+ p +:+ "/" +:+ i +:+ ":" +:+ r ∧
    occurrences "@sha256:" (i +:+ ":" +:+ r) = 0 ∧
    count_char ":" i = 0 ∧ count_char ":" r = 0) ∨
   (s = h +:+ "/" +:+ p +:+ "/" +:+ i ∧ r = "latest" ∧ count_char ":" i = 0)).
Proof.
  intros Hparse.
  assert (py_in "://" s = false) as Hscheme.
  { unfold parse_docker_pull_link in Hparse. by destruct (py_in "://" s). }
  assert (3 ≤ length (py_split "/" s)) as Hlen.
  { unfold parse_docker_pull_link in Hparse. rewrite Hscheme in Hparse.
    destruct (Nat.ltb_spec (length (py_split "/" s)) 3); [done | lia]. }
  destruct (parse_segments s Hscheme Hlen) as (host & project & Hs & Hh & Hp & Heq).
  rewrite Heq in Hparse. cbv zeta in Hparse.
  set (tail := image_and_ref_of s) in *. clearbody tail.
  destruct (py_in "@sha256:" tail) eqn:Em.
  - destruct (unpack2 (py_split "@sha256:" tail)) as [[a b]|] eqn:Eu; [| done].
    cbn [bind] in Hparse. injection Hparse as <- <- <- <-.
    apply unpack2_ok in Eu.
    pose proof (py_join_split "@sha256:" digest_marker_nonempty tail) as Hj.
    rewrite Eu in Hj. cbn [py_join] in Hj.
    split; [done |]. split; [done |]. left. exists b. split; [done |].
    by rewrite Hs, <- Hj.
  - destruct (py_in ":" tail) eqn:Ec.
    + destruct (unpack2 (py_split ":" tail)) as [[a b]|] eqn:Eu; [| done].
      cbn [bind] in Hparse. injection Hparse as <- <- <- <-.
      apply unpack2_ok in Eu.
      pose proof (py_join_split ":" colon_nonempty tail) as Hj.
      pose proof (split_char_pieces ":" tail) as Hpieces.
      rewrite Eu in Hj, Hpieces. cbn [py_join] in Hj.
      apply Forall_cons in Hpieces as [Ha Hpieces].
      apply Forall_cons in Hpieces as [Hb _].
      split; [done |]. split; [done |]. right. left.
      rewrite Hj. split; [done |]. split; [| done].
      by apply py_in_false.
    + injection Hparse as <- <- <- <-.
      split; [done |]. split; [done |]. right. right.
      split; [done |]. split; [done |].
      apply py_in_false in Ec. by rewrite occurrences_char in Ec.
Qed.

(** X18: every pull string the parser accepts has one of three shapes,
    and the parts returned are its pieces: [host/project/image@sha256:hex]
    with the reference [sha256:hex]; [host/project/image:ref], without
    the digest marker after the project; or [host/project/image] without
    a colon after the project, with the reference [latest].  Host and
    project hold no slash. *)
Theorem parse_shape (s h p i r : string) :
  parse_docker_pull_link s = Ok (h, p, i, r) →
  count_char "/" h = 0 ∧ count_char "/" p = 0 ∧
  ((∃ hex, r = "sha256:" +:+ hex ∧
           s = h +:+ "/" +:+ p +:+ "/" +:+ i +:+ "@sha256:" +:+ hex) ∨
   (s = h +:+ "/" +:+ p +:+ "/" +:+ i +:+ ":" +:+ r ∧
    occurrences "@sha256:" (i +:+ ":" +:+ r) = 0 ∧
    count_char ":" i = 0 ∧ count_char ":" r = 0) ∨
   (s = h +:+ "/" +:+ p +:+ "/" +:+ i ∧ r = "latest" ∧ count_char ":" i = 0)).
Proof. apply parse_decompose. Qed.

Lemma parse_shape_witness :
  count_char "/" "h" = 0 ∧ count_char "/" "p" = 0 ∧
  ((∃ hex, "sha256:abc" = "sha256:" +:+ hex ∧
           "h/p/a/b@sha256:abc" = "h" +:+ "/" +:+ "p" +:+ "/" +:+ "a/b" +:+ "@sha256:" +:+ hex) ∨
   ("h/p/a/b@sha256:abc" = "h" +:+ "/" +:+ "p" +:+ "/" +:+ "a/b" +:+ ":" +:+ "sha256:abc" ∧
    occurrences "@sha256:" ("a/b" +:+ ":" +:+ "sha256:abc") = 0 ∧
    count_char ":" "a/b" = 0 ∧ count_char ":" "sha256:abc" = 0) ∨
   ("h/p/a/b@sha256:abc" = "h" +:+ "/" +:+ "p" +:+ "/" +:+ "a/b" ∧
    "sha256:abc" = "latest" ∧ count_char ":" "a/b" = 0)).
Proof.
  apply (parse_shape "h/p/a/b@sha256:abc" "h" "p" "a/b" "sha256:abc").
  vm_compute. reflexivity.
Defined.

(** ** Main: the name of the archive *)

Lemma py_replace_count_other (c old new : ascii) (s : string) :
  c ≠ old → c ≠ new → count_char c (py_replace old new s) = count_char c s.
Proof.
  intros Ho Hn. induction s as [|x s IH]; [done |].
  cbn [py_replace count_char]. rewrite IH. f_equal.
  destruct (Ascii.eqb_spec x old) as [->|Hx]; [| done].
  destruct (Ascii.eqb_spec new c) as [->|]; [done |].
  by destruct (Ascii.eqb_spec old c) as [->|].
Qed.

(** X19: the slashes of an accepted pull string and of the archive name
    [main] derives from it.  Beyond the two slashes that end host and
    project, every slash of the pull string lies in the image path or in
    the reference; those of the image path become underscores in the
    archive name and those of the reference are kept, so the archive name
    holds exactly the slashes of the reference. *)
Theorem archive_name_slashes (s h p i r : string) :
  parse_docker_pull_link s = Ok (h, p, i, r) →
  count_char "/" (tar_path_of i r) = count_char "/" r ∧
  count_char "/" s = 2 + count_char "/" i + count_char "/" r.
Proof.
  intros Hparse. split.
  - unfold tar_path_of. rewrite !count_char_app.
    rewrite py_replace_count_old by done.
    rewrite py_replace_count_other by done. done.
  - destruct (parse_decompose s h p i r Hparse)
      as (Hh & Hp & [(hex & -> & ->)|[(-> & _)|(-> & -> & _)]]);
      rewrite !count_char_app, Hh, Hp; simpl; lia.
Qed.

Lemma archive_name_slashes_witness :
  count_char "/" (tar_path_of "a" "b/c") = count_char "/" "b/c" ∧
  count_char "/" "h/p/a:b/c" = 2 + count_char "/" "a" + count_char "/" "b/c".
Proof.
  apply (archive_name_slashes "h/p/a:b/c" "h" "p" "a" "b/c").
  vm_compute. reflexivity.
Defined.
